(** * Refresh-token lifecycle of the NestJS authentication service

    A shallow embedding of [auth.service.ts], [utils/token.util.ts] and
    [utils/bcrypt.util.ts].  Asynchronous methods become computations in a
    state-and-exception monad over an abstract world; the injected services
    ([UsersService], [JwtService], [RefreshTokenRepository]) and the [bcrypt]
    module are records of such computations, so that every statement about
    [AuthService] holds for whatever these collaborators do. *)

From Stdlib Require Import String ZArith List Bool Lia DecimalString.
Import ListNotations.
Local Open Scope string_scope.
Local Open Scope list_scope.
Local Open Scope Z_scope.
#[local] Set Warnings "-register-all".

(** ** Exceptions *)

(** Modelled from the spec: the three refresh-token exception classes are
    declared in exceptions/auth.exceptions, which is not among the sources;
    the spec's error taxonomy has them as three distinct kinds, distinct from
    the invalid-token and the infrastructure errors.  With them, the two
    classes of @nestjs/common the files throw; [JsError] stands for any other
    thrown value (a driver error, a [JsonWebTokenError], ...), with its
    [name] and [message]. *)
Inductive exn : Type :=
| UnauthorizedException (message : string)
| InternalServerErrorException (message : string)
| RefreshTokenReusedException
| RefreshTokenRevokedException
| RefreshTokenExpiredException
| JsError (name message : string).

(** ** The effect monad: state passing with exceptions

    A computation takes the world and gives back either a value or a thrown
    exception, together with the world as it left it: effects performed
    before a [throw] stay performed. *)
Inductive outcome (A : Type) : Type :=
| Returned (a : A)
| Thrown (e : exn).
Arguments Returned {A} a.
Arguments Thrown {A} e.

Definition Eff (W A : Type) : Type := W -> outcome A * W.

Definition ret {W A} (a : A) : Eff W A := fun w => (Returned a, w).

Definition throw {W A} (e : exn) : Eff W A := fun w => (Thrown e, w).

Definition bind {W A B} (m : Eff W A) (k : A -> Eff W B) : Eff W B :=
  fun w =>
    match m w with
    | (Returned a, w') => k a w'
    | (Thrown e, w') => (Thrown e, w')
    end.

(** [try { body } catch (error) { handler error }] *)
Definition try_catch {W A} (body : Eff W A) (handler : exn -> Eff W A) : Eff W A :=
  fun w =>
    match body w with
    | (Returned a, w') => (Returned a, w')
    | (Thrown e, w') => handler e w'
    end.

Declare Scope eff_scope.
Delimit Scope eff_scope with eff.
Notation "x <- c ;; k" := (bind c (fun x => k))
  (at level 61, c at next level, right associativity) : eff_scope.
Notation "c ;;; k" := (bind c (fun _ => k))
  (at level 61, right associativity) : eff_scope.
Local Open Scope eff_scope.

(** ** Data model *)

(** Modelled from the spec: the entity [UsersService.findByEmail] resolves
    to is declared outside the sources; the fields are the spec's
    UserIdentity, of which the service reads these four. *)
Record User : Type := {
  user_id : string;
  user_email : string;
  user_displayName : option string;
  user_passwordHash : string
}.

(** [interface UserInfo] of token.util.ts; an optional field is an [option]. *)
Record UserInfo : Type := {
  id : string;
  email : string;
  displayName : option string
}.

(** [interface TokenPayload] of token.util.ts. *)
Record TokenPayload : Type := {
  sub : string;
  payload_email : string;
  payload_displayName : option string;
  typ : option string
}.

(** The second argument of [jwtService.sign]: [{ secret, expiresIn }]. *)
Record SignOptions : Type := {
  secret : string;
  expiresIn : string
}.

(** Modelled from the spec: [RequestMetadata] is declared in
    utils/request-meta.util, which is not among the sources; the spec gives
    the metadata as the issuing IP and user agent, both optional. *)
Record RequestMetadata : Type := {
  ip : option string;
  userAgent : option string
}.

(** Modelled from the spec: a row of the refresh-token table is declared
    by the persistence layer, which is not among the sources; the fields are
    the spec's RefreshTokenRecord.  Dates are milliseconds since the epoch,
    as [getTime()] gives them. *)
Record RefreshTokenRecord : Type := {
  rec_id : string;
  rec_userId : string;
  rec_token : string;
  rec_issuedAt : Z;
  rec_expiresAt : Z;
  rec_revokedAt : option Z;
  rec_replacedById : option string;
  rec_meta : option RequestMetadata
}.

(** What [issueTokens] and [refresh] resolve to. *)
Record TokenPair : Type := {
  access_token : string;
  refresh_token : string;
  refresh_token_id : string
}.

(** What [logout] resolves to. *)
Record LogoutResult : Type := { ok : bool }.

(** A JavaScript value, for the [any] that [decodeToken] returns.  A number
    is an integer here: a decoded JWT comes out of [JSON.parse], which yields
    neither NaN nor an infinity, and the NumericDate claims are whole
    seconds. *)
Inductive JsVal : Type :=
| JsUndefined
| JsNull
| JsBool (b : bool)
| JsNumber (n : Z)
| JsString (s : string)
| JsObject (fields : list (string * JsVal)).

(** ** Collaborators

    Code the three files call but do not contain. Each is a record of
    computations over the world, one field per method used. *)

Record UsersService (W : Type) : Type := {
  users_findByEmail : string -> Eff W (option User)
}.
Arguments users_findByEmail {W}.

(** [JwtService] of @nestjs/jwt. *)
Record JwtService (W : Type) : Type := {
  jwt_sign : TokenPayload -> option SignOptions -> Eff W string;
  jwt_verifyAsync : string -> string -> Eff W TokenPayload;
  jwt_decode : string -> Eff W JsVal
}.
Arguments jwt_sign {W}.
Arguments jwt_verifyAsync {W}.
Arguments jwt_decode {W}.

(** The [bcrypt] module. *)
Record Bcrypt (W : Type) : Type := {
  bcrypt_hash : string -> Z -> Eff W string;
  bcrypt_compare : string -> string -> Eff W bool
}.
Arguments bcrypt_hash {W}.
Arguments bcrypt_compare {W}.

(** [RefreshTokenRepository]: the Token Store. *)
Record RefreshTokenRepository (W : Type) : Type := {
  tokenRepo_createRefreshToken : UserInfo -> Eff W string;
  tokenRepo_save :
    string -> string -> option RequestMetadata -> Eff W RefreshTokenRecord;
  tokenRepo_verifyRefreshToken : string -> Eff W TokenPayload;
  tokenRepo_findByUserId : string -> Eff W (list RefreshTokenRecord);
  tokenRepo_findAll : Z -> Eff W (list RefreshTokenRecord);
  tokenRepo_findMatchedToken :
    list RefreshTokenRecord -> string -> Eff W (option RefreshTokenRecord);
  tokenRepo_revoke : string -> Eff W unit;
  tokenRepo_revokeAllForUser : string -> Eff W unit;
  tokenRepo_markAsReplaced : string -> string -> Eff W unit
}.
Arguments tokenRepo_createRefreshToken {W}.
Arguments tokenRepo_save {W}.
Arguments tokenRepo_verifyRefreshToken {W}.
Arguments tokenRepo_findByUserId {W}.
Arguments tokenRepo_findAll {W}.
Arguments tokenRepo_findMatchedToken {W}.
Arguments tokenRepo_revoke {W}.
Arguments tokenRepo_revokeAllForUser {W}.
Arguments tokenRepo_markAsReplaced {W}.

(** ** utils/token.util.ts *)
Module TokenUtil.
Section TokenUtil.
Context {W : Type}.

Definition signAccessToken (jwtService : JwtService W) (user : UserInfo)
  : Eff W string :=
  try_catch
    (jwt_sign jwtService
       {| sub := id user;
          payload_email := email user;
          payload_displayName := displayName user;
          typ := None |}
       None)
    (fun _error => throw (UnauthorizedException "Failed to sign access token")).

Definition signRefreshToken (jwtService : JwtService W) (user : UserInfo)
    (secret : string) (expiresIn : string) : Eff W string :=
  try_catch
    (jwt_sign jwtService
       {| sub := id user;
          payload_email := email user;
          payload_displayName := displayName user;
          typ := Some "refresh" |}
       (Some {| secret := secret; expiresIn := expiresIn |}))
    (fun _error => throw (UnauthorizedException "Failed to sign refresh token")).

(** The default of [signRefreshToken]'s last parameter. *)
Definition default_expiresIn : string := "7d".

Definition verifyRefreshToken (jwtService : JwtService W) (token secret : string)
  : Eff W TokenPayload :=
  try_catch
    (jwt_verifyAsync jwtService token secret)
    (fun _error =>
       throw (UnauthorizedException "Invalid or expired refresh token")).

Definition decodeToken (jwtService : JwtService W) (token : string)
  : Eff W JsVal :=
  try_catch
    (jwt_decode jwtService token)
    (fun _error => throw (UnauthorizedException "Failed to decode token")).
End TokenUtil.

(** [v?.prop]: [undefined] on [null] and [undefined], the property otherwise;
    a primitive has no own property of that name. *)
Fixpoint get_field (fields : list (string * JsVal)) (name : string) : JsVal :=
  match fields with
  | [] => JsUndefined
  | (k, v) :: rest => if String.eqb k name then v else get_field rest name
  end.

Definition optional_member (v : JsVal) (name : string) : JsVal :=
  match v with
  | JsObject fields => get_field fields name
  | _ => JsUndefined
  end.

(** JavaScript truthiness. *)
Definition truthy (v : JsVal) : bool :=
  match v with
  | JsUndefined | JsNull => false
  | JsBool b => b
  | JsNumber n => negb (n =? 0)
  | JsString s => negb (String.eqb s "")
  | JsObject _ => true
  end.

(** [typeof v === 'number'] *)
Definition is_number (v : JsVal) : bool :=
  match v with
  | JsNumber _ => true
  | _ => false
  end.

(** [Math.floor(Date.now() / 1000) + 60 * 60 * 24 * 7] *)
Definition seven_days_from (Date_now : Z) : Z :=
  Date_now / 1000 + 60 * 60 * 24 * 7.

(** [extractTokenExpiration]; the reading of the clock is an argument. *)
Definition extractTokenExpiration (Date_now : Z) (decodedToken : JsVal) : Z :=
  let exp := optional_member decodedToken "exp" in
  if truthy exp && is_number exp then
    match exp with
    | JsNumber n => n
    | _ => 0
    end
  else
    (* Default to 7 days from now if no exp claim *)
    seven_days_from Date_now.
End TokenUtil.

(** ** utils/bcrypt.util.ts *)
Module BcryptUtil.
Section BcryptUtil.
Context {W : Type}.
Variable bcrypt : Bcrypt W.

Definition hashPassword (plainText : string) (rounds : Z) : Eff W string :=
  try_catch
    (bcrypt_hash bcrypt plainText rounds)
    (fun _error => throw (InternalServerErrorException "Failed to hash password")).

(** The default of [hashPassword]'s last parameter. *)
Definition default_rounds : Z := 12.

Definition comparePassword (plainText hash : string) : Eff W bool :=
  try_catch
    (bcrypt_compare bcrypt plainText hash)
    (fun _error =>
       throw (InternalServerErrorException "Failed to compare passwords")).

Definition hashToken (token : string) : Eff W string :=
  try_catch
    (bcrypt_hash bcrypt token 12)
    (fun _error => throw (InternalServerErrorException "Failed to hash token")).

Definition compareToken (token hash : string) : Eff W bool :=
  try_catch
    (bcrypt_compare bcrypt token hash)
    (fun _error =>
       throw (InternalServerErrorException "Failed to compare tokens")).
End BcryptUtil.
End BcryptUtil.

(** ** auth.service.ts *)

(** The injected services of [AuthService]'s constructor, with the two
    ambient facilities its methods reach: the [bcrypt] module behind
    [comparePassword], and [Date.now()], a reading of the world. *)
Record AuthService (W : Type) : Type := {
  users : UsersService W;
  jwt : JwtService W;
  tokenRepo : RefreshTokenRepository W;
  bcrypt : Bcrypt W;
  Date_now : W -> Z
}.
Arguments users {W}.
Arguments jwt {W}.
Arguments tokenRepo {W}.
Arguments bcrypt {W}.
Arguments Date_now {W}.

(** The [instanceof] tests of [refresh]'s catch block. *)
Definition is_known_refresh_exception (error : exn) : bool :=
  match error with
  | RefreshTokenReusedException
  | RefreshTokenRevokedException
  | RefreshTokenExpiredException => true
  | _ => false
  end.

Section AuthServiceMethods.
Context {W : Type}.
Variable this : AuthService W.

Definition validateUser (email password : string) : Eff W (option UserInfo) :=
  try_catch
    (user <- users_findByEmail (users this) email ;;
     match user with
     | None => ret None
     | Some user =>
         isValid <- BcryptUtil.comparePassword (bcrypt this)
                      password (user_passwordHash user) ;;
         ret (if isValid : bool
              then Some {| id := user_id user;
                           email := user_email user;
                           displayName := user_displayName user |}
              else None)
     end)
    (fun _error =>
       throw (InternalServerErrorException "Failed to validate user")).

Definition issueTokens (user : UserInfo) (meta : option RequestMetadata)
  : Eff W TokenPair :=
  try_catch
    (access_token <- TokenUtil.signAccessToken (jwt this) user ;;
     refresh_token <- tokenRepo_createRefreshToken (tokenRepo this) user ;;
     saved <- tokenRepo_save (tokenRepo this) (id user) refresh_token meta ;;
     ret {| access_token := access_token;
            refresh_token := refresh_token;
            refresh_token_id := rec_id saved |})
    (fun _error =>
       throw (InternalServerErrorException "Failed to issue tokens")).

(** The body of [refresh]'s [try] block. *)
Definition refresh_body (rawRefreshToken : string)
    (meta : option RequestMetadata) : Eff W TokenPair :=
  (* 1) Verify signature & expiration *)
  payload <- tokenRepo_verifyRefreshToken (tokenRepo this) rawRefreshToken ;;
  (* 2) Find user's refresh tokens *)
  tokens <- tokenRepo_findByUserId (tokenRepo this) (sub payload) ;;
  (* 3) Check for token reuse *)
  matched <- tokenRepo_findMatchedToken (tokenRepo this) tokens rawRefreshToken ;;
  match matched with
  | None =>
      (* Reuse detection: revoke all tokens for security *)
      tokenRepo_revokeAllForUser (tokenRepo this) (sub payload) ;;;
      throw RefreshTokenReusedException
  | Some matched =>
      (* 4) Check token status *)
      match rec_revokedAt matched with
      | Some _ => throw RefreshTokenRevokedException
      | None =>
          fun w =>
            if rec_expiresAt matched <=? Date_now this w then
              (tokenRepo_revoke (tokenRepo this) (rec_id matched) ;;;
               throw RefreshTokenExpiredException) w
            else
              (* 5) Rotate: issue new tokens and revoke old one *)
              (userData <- users_findByEmail (users this) (payload_email payload) ;;
               let user :=
                 {| id := sub payload;
                    email := payload_email payload;
                    displayName :=
                      match userData with
                      | Some u => user_displayName u
                      | None => None
                      end |} in
               access_token <- TokenUtil.signAccessToken (jwt this) user ;;
               refresh_token <- tokenRepo_createRefreshToken (tokenRepo this) user ;;
               saved <- tokenRepo_save (tokenRepo this) (id user) refresh_token meta ;;
               tokenRepo_markAsReplaced (tokenRepo this)
                 (rec_id matched) (rec_id saved) ;;;
               ret {| access_token := access_token;
                      refresh_token := refresh_token;
                      refresh_token_id := rec_id saved |}) w
      end
  end.

Definition refresh (rawRefreshToken : string) (meta : option RequestMetadata)
  : Eff W TokenPair :=
  try_catch
    (refresh_body rawRefreshToken meta)
    (fun error =>
       (* Re-throw known exceptions *)
       if is_known_refresh_exception error then throw error
       else throw (InternalServerErrorException "Failed to refresh tokens")).

Definition logout (rawRefreshToken : string) : Eff W LogoutResult :=
  try_catch
    (tokens <- tokenRepo_findAll (tokenRepo this) 500 ;;
     matched <- tokenRepo_findMatchedToken (tokenRepo this) tokens rawRefreshToken ;;
     match matched with
     | Some matched => tokenRepo_revoke (tokenRepo this) (rec_id matched)
     | None => ret tt
     end ;;;
     ret {| ok := true |})
    (fun _error => throw (InternalServerErrorException "Failed to logout")).
End AuthServiceMethods.

(** ** Call traces

    To speak of which collaborator calls a method makes, and in which order,
    a service is wrapped so that every call appends an event, with its
    arguments and its outcome, to a log carried beside the world.  The
    wrapper changes nothing else. *)
Inductive Event : Type :=
| EvFindByEmail (email : string) (res : outcome (option User))
| EvJwtSign (payload : TokenPayload) (options : option SignOptions)
    (res : outcome string)
| EvJwtVerifyAsync (token secret : string) (res : outcome TokenPayload)
| EvJwtDecode (token : string) (res : outcome JsVal)
| EvBcryptHash (data : string) (rounds : Z) (res : outcome string)
| EvBcryptCompare (data hash : string) (res : outcome bool)
| EvCreateRefreshToken (user : UserInfo) (res : outcome string)
| EvSave (userId rawToken : string) (meta : option RequestMetadata)
    (res : outcome RefreshTokenRecord)
| EvVerifyRefreshToken (rawToken : string) (res : outcome TokenPayload)
| EvFindByUserId (userId : string) (res : outcome (list RefreshTokenRecord))
| EvFindAll (limit : Z) (res : outcome (list RefreshTokenRecord))
| EvFindMatchedToken (tokens : list RefreshTokenRecord) (rawToken : string)
    (res : outcome (option RefreshTokenRecord))
| EvRevoke (recordId : string) (res : outcome unit)
| EvRevokeAllForUser (userId : string) (res : outcome unit)
| EvMarkAsReplaced (oldId newId : string) (res : outcome unit).

Definition logged {W A} (event : outcome A -> Event) (call : Eff W A)
  : Eff (W * list Event) A :=
  fun '(w, log) =>
    let '(res, w') := call w in
    (res, (w', log ++ [event res])).

Definition traced {W} (this : AuthService W) : AuthService (W * list Event) :=
  {| users :=
       {| users_findByEmail := fun email =>
            logged (EvFindByEmail email) (users_findByEmail (users this) email) |};
     jwt :=
       {| jwt_sign := fun payload options =>
            logged (EvJwtSign payload options) (jwt_sign (jwt this) payload options);
          jwt_verifyAsync := fun token secret =>
            logged (EvJwtVerifyAsync token secret)
              (jwt_verifyAsync (jwt this) token secret);
          jwt_decode := fun token =>
            logged (EvJwtDecode token) (jwt_decode (jwt this) token) |};
     tokenRepo :=
       {| tokenRepo_createRefreshToken := fun user =>
            logged (EvCreateRefreshToken user)
              (tokenRepo_createRefreshToken (tokenRepo this) user);
          tokenRepo_save := fun userId rawToken meta =>
            logged (EvSave userId rawToken meta)
              (tokenRepo_save (tokenRepo this) userId rawToken meta);
          tokenRepo_verifyRefreshToken := fun rawToken =>
            logged (EvVerifyRefreshToken rawToken)
              (tokenRepo_verifyRefreshToken (tokenRepo this) rawToken);
          tokenRepo_findByUserId := fun userId =>
            logged (EvFindByUserId userId)
              (tokenRepo_findByUserId (tokenRepo this) userId);
          tokenRepo_findAll := fun limit =>
            logged (EvFindAll limit) (tokenRepo_findAll (tokenRepo this) limit);
          tokenRepo_findMatchedToken := fun tokens rawToken =>
            logged (EvFindMatchedToken tokens rawToken)
              (tokenRepo_findMatchedToken (tokenRepo this) tokens rawToken);
          tokenRepo_revoke := fun recordId =>
            logged (EvRevoke recordId) (tokenRepo_revoke (tokenRepo this) recordId);
          tokenRepo_revokeAllForUser := fun userId =>
            logged (EvRevokeAllForUser userId)
              (tokenRepo_revokeAllForUser (tokenRepo this) userId);
          tokenRepo_markAsReplaced := fun oldId newId =>
            logged (EvMarkAsReplaced oldId newId)
              (tokenRepo_markAsReplaced (tokenRepo this) oldId newId) |};
     bcrypt :=
       {| bcrypt_hash := fun data rounds =>
            logged (EvBcryptHash data rounds) (bcrypt_hash (bcrypt this) data rounds);
          bcrypt_compare := fun data hash =>
            logged (EvBcryptCompare data hash)
              (bcrypt_compare (bcrypt this) data hash) |};
     Date_now := fun '(w, _) => Date_now this w |}.

(** The events a computation of the traced service adds, from an empty log. *)
Definition trace_of {W A} (run : Eff (W * list Event) A) (w : W) : list Event :=
  snd (snd (run (w, []))).

(** Every [markAsReplaced] event comes right after a [save] event that
    returned the record whose id is the call's second argument, and nothing
    follows it.  [previous] is the event just before [events]. *)
Fixpoint marks_follow_saves (previous : option Event) (events : list Event)
  : bool :=
  match events with
  | [] => true
  | EvMarkAsReplaced _ newId _ as ev :: rest =>
      match previous, rest with
      | Some (EvSave _ _ _ (Returned saved)), [] => String.eqb newId (rec_id saved)
      | _, _ => false
      end
  | ev :: rest => marks_follow_saves (Some ev) rest
  end.

(** ** A reference world

    A concrete world on which the service runs: a clock, a user directory, a
    refresh-token table and an idealised JWT library (a token is an opaque
    serial string; the tokens minted so far are remembered with what was
    signed, so that no other string verifies).  The repository below follows
    the spec's Token Store; it serves to run the scenarios and to show that
    the hypotheses of the general theorems can be met. *)
Module Model.

(** What the idealised library remembers of a token it signed. *)
Record SignedToken : Type := {
  st_payload : TokenPayload;
  st_secret : string;
  st_iat : Z;
  st_exp : Z
}.

Record World : Type := {
  clock : Z;
  directory : list User;
  table : list RefreshTokenRecord;
  minted : list (string * SignedToken);
  serial : nat;
  store_down : bool
}.

Definition tick (ms : Z) (w : World) : World :=
  {| clock := clock w + ms; directory := directory w; table := table w;
     minted := minted w; serial := serial w; store_down := store_down w |}.

Definition with_table (t : list RefreshTokenRecord) (w : World) : World :=
  {| clock := clock w; directory := directory w; table := t;
     minted := minted w; serial := serial w; store_down := store_down w |}.

Definition with_store_down (b : bool) (w : World) : World :=
  {| clock := clock w; directory := directory w; table := table w;
     minted := minted w; serial := serial w; store_down := b |}.

Definition decimal (n : nat) : string :=
  NilEmpty.string_of_uint (Nat.to_uint n).

(** *** Configuration *)
Definition ACCESS_SECRET : string := "access-secret".
Definition ACCESS_EXPIRES_IN : string := "15m".
Definition REFRESH_SECRET : string := "refresh-secret".

(** *** Duration strings: digits followed by one of s, m, h, d *)
Definition digit_of (c : Ascii.ascii) : option Z :=
  let n := Z.of_nat (Ascii.nat_of_ascii c) in
  if (48 <=? n) && (n <=? 57) then Some (n - 48) else None.

Fixpoint read_number (s : string) (acc : Z) (seen : bool) : option (Z * string) :=
  match s with
  | EmptyString => if seen then Some (acc, s) else None
  | String c rest =>
      match digit_of c with
      | Some d => read_number rest (10 * acc + d) true
      | None => if seen then Some (acc, s) else None
      end
  end.

Definition seconds_of_duration (s : string) : option Z :=
  match read_number s 0 false with
  | Some (n, unit_) =>
      if String.eqb unit_ "s" then Some n
      else if String.eqb unit_ "m" then Some (60 * n)
      else if String.eqb unit_ "h" then Some (3600 * n)
      else if String.eqb unit_ "d" then Some (86400 * n)
      else None
  | None => None
  end.

(** *** The idealised JWT library *)
Fixpoint lookup_token (token : string) (l : list (string * SignedToken))
  : option SignedToken :=
  match l with
  | [] => None
  | (t, st) :: rest => if String.eqb t token then Some st else lookup_token token rest
  end.

(** [sign]: the expiration is the issue time plus the lifetime, in seconds;
    without options the module's own secret and lifetime apply. *)
Definition model_sign (payload : TokenPayload) (options : option SignOptions)
  : Eff World string :=
  fun w =>
    let secret_ := match options with Some o => secret o | None => ACCESS_SECRET end in
    let ttl := match options with Some o => expiresIn o | None => ACCESS_EXPIRES_IN end in
    match seconds_of_duration ttl with
    | None => (Thrown (JsError "Error" "invalid expiresIn option"), w)
    | Some seconds =>
        let iat := clock w / 1000 in
        let token := ("jwt." ++ decimal (serial w))%string in
        let st := {| st_payload := payload; st_secret := secret_;
                     st_iat := iat; st_exp := iat + seconds |} in
        (Returned token,
         {| clock := clock w; directory := directory w; table := table w;
            minted := (token, st) :: minted w; serial := S (serial w);
            store_down := store_down w |})
    end.

(** [verifyAsync]: rejects a string it never signed, a token signed with
    another secret, and a token at or past its expiration, each with an
    error of its own. *)
Definition model_verifyAsync (token secret_ : string) : Eff World TokenPayload :=
  fun w =>
    match lookup_token token (minted w) with
    | None => (Thrown (JsError "JsonWebTokenError" "jwt malformed"), w)
    | Some st =>
        if negb (String.eqb (st_secret st) secret_) then
          (Thrown (JsError "JsonWebTokenError" "invalid signature"), w)
        else if st_exp st <=? clock w / 1000 then
          (Thrown (JsError "TokenExpiredError" "jwt expired"), w)
        else (Returned (st_payload st), w)
    end.

Definition optional_string (name : string) (v : option string)
  : list (string * JsVal) :=
  match v with
  | Some s => [(name, JsString s)]
  | None => []
  end.

(** [decode]: the payload with its [iat] and [exp], or null; nothing is
    verified. *)
Definition model_decode (token : string) : Eff World JsVal :=
  fun w =>
    match lookup_token token (minted w) with
    | None => (Returned JsNull, w)
    | Some st =>
        let p := st_payload st in
        (Returned
           (JsObject
              ([("sub", JsString (sub p)); ("email", JsString (payload_email p))]
               ++ optional_string "displayName" (payload_displayName p)
               ++ optional_string "typ" (typ p)
               ++ [("iat", JsNumber (st_iat st)); ("exp", JsNumber (st_exp st))])),
         w)
    end.

Definition model_jwt : JwtService World :=
  {| jwt_sign := model_sign;
     jwt_verifyAsync := model_verifyAsync;
     jwt_decode := model_decode |}.

(** *** An idealised bcrypt *)

Definition two_digits (n : Z) : string :=
  ((if (n <? 10)%Z then "0" else "") ++ decimal (Z.to_nat n))%string.

(** The hash is a tagged copy of the data and [compare] compares whole
    strings, where the library reads the first 72 bytes only.  The empty
    string stands for a hash argument that is missing, which the library
    rejects. *)
Definition model_bcrypt : Bcrypt World :=
  {| bcrypt_hash := fun data rounds w =>
       (Returned ("$2b$" ++ two_digits rounds ++ "$" ++ data)%string, w);
     bcrypt_compare := fun data hash w =>
       if String.eqb hash "" then
         (Thrown (JsError "Error" "data and hash arguments required"), w)
       else
         (Returned
            (String.eqb (substring 0 4 hash) "$2b$"
             && String.eqb (substring 7 (String.length hash - 7)%nat hash) data),
          w) |}.

(** *** The user directory *)

(** What a query throws while the database cannot be reached. *)
Definition DB_ERROR : exn :=
  JsError "PrismaClientInitializationError" "Can't reach database server".

(** A query of the database: rejected while the store is down. *)
Definition query {A} (run : World -> A * World) : Eff World A :=
  fun w =>
    if store_down w then (Thrown DB_ERROR, w)
    else let '(a, w') := run w in (Returned a, w').

(** Modelled from the spec: the User Directory's [findByEmail] resolves to
    the identity with that e-mail, or to null.  E-mails are compared as
    written here; the sample data is in lower case throughout. *)
Definition model_users : UsersService World :=
  {| users_findByEmail := fun email =>
       query (fun w =>
         (find (fun u => String.eqb (user_email u) email) (directory w), w)) |}.

(** *** The Token Store *)

Definition revoked_at (now : Z) (r : RefreshTokenRecord) : RefreshTokenRecord :=
  match rec_revokedAt r with
  | Some _ => r
  | None =>
      {| rec_id := rec_id r; rec_userId := rec_userId r; rec_token := rec_token r;
         rec_issuedAt := rec_issuedAt r; rec_expiresAt := rec_expiresAt r;
         rec_revokedAt := Some now; rec_replacedById := rec_replacedById r;
         rec_meta := rec_meta r |}
  end.

Definition replaced_by (newId : string) (r : RefreshTokenRecord)
  : RefreshTokenRecord :=
  {| rec_id := rec_id r; rec_userId := rec_userId r; rec_token := rec_token r;
     rec_issuedAt := rec_issuedAt r; rec_expiresAt := rec_expiresAt r;
     rec_revokedAt := rec_revokedAt r; rec_replacedById := Some newId;
     rec_meta := rec_meta r |}.

(** Apply [f] to the rows that satisfy [p]. *)
Definition update_where (p : RefreshTokenRecord -> bool)
    (f : RefreshTokenRecord -> RefreshTokenRecord)
    (t : list RefreshTokenRecord) : list RefreshTokenRecord :=
  map (fun r => if p r then f r else r) t.

(** Modelled from the spec: [create(userInfo)] generates and signs a new
    refresh token value, not yet persisted; the lifetime is the default
    of seven days. *)
Definition createRefreshToken (user : UserInfo) : Eff World string :=
  TokenUtil.signRefreshToken model_jwt user REFRESH_SECRET
    TokenUtil.default_expiresIn.

(** Modelled from the spec: [save(userId, rawToken, metadata)] persists a
    new record for the token and returns it with its generated id.  The
    stored representation is the token's hash; the store-side expiry is
    what [extractTokenExpiration] gives for the decoded token, in
    milliseconds.  The table is kept most recent first. *)
Definition save (userId rawToken : string) (meta : option RequestMetadata)
  : Eff World RefreshTokenRecord :=
  decoded <- TokenUtil.decodeToken model_jwt rawToken ;;
  tokenHash <- BcryptUtil.hashToken model_bcrypt rawToken ;;
  query (fun w =>
    let r := {| rec_id := ("rt_" ++ decimal (serial w))%string;
                rec_userId := userId;
                rec_token := tokenHash;
                rec_issuedAt := clock w;
                rec_expiresAt :=
                  1000 * TokenUtil.extractTokenExpiration (clock w) decoded;
                rec_revokedAt := None;
                rec_replacedById := None;
                rec_meta := meta |} in
    (r, {| clock := clock w; directory := directory w; table := r :: table w;
           minted := minted w; serial := S (serial w);
           store_down := store_down w |})).

(** Modelled from the spec: [verifySignature(rawToken)] delegates to the
    Token Codec. *)
Definition verifyRefreshToken (rawToken : string) : Eff World TokenPayload :=
  TokenUtil.verifyRefreshToken model_jwt rawToken REFRESH_SECRET.

(** Modelled from the spec: all records, of any status, of a user. *)
Definition findByUserId (userId : string) : Eff World (list RefreshTokenRecord) :=
  query (fun w =>
    (filter (fun r => String.eqb (rec_userId r) userId) (table w), w)).

(** Modelled from the spec: the [limit] most recent records. *)
Definition findAll (limit : Z) : Eff World (list RefreshTokenRecord) :=
  query (fun w => (firstn (Z.to_nat limit) (table w), w)).

(** Modelled from the spec: a linear scan comparing the raw token with each
    candidate's stored representation, the first match winning; a record
    already replaced is treated as revoked for matching and so is no
    match for its original value. *)
Fixpoint findMatchedToken (tokens : list RefreshTokenRecord) (rawToken : string)
  : Eff World (option RefreshTokenRecord) :=
  match tokens with
  | [] => ret None
  | t :: rest =>
      match rec_replacedById t with
      | Some _ => findMatchedToken rest rawToken
      | None =>
          same <- BcryptUtil.compareToken model_bcrypt rawToken (rec_token t) ;;
          if same : bool then ret (Some t) else findMatchedToken rest rawToken
      end
  end.

(** Modelled from the spec: sets [revokedAt] to now; a no-op on a record
    already revoked. *)
Definition revoke (recordId : string) : Eff World unit :=
  query (fun w =>
    (tt, with_table
           (update_where (fun r => String.eqb (rec_id r) recordId)
              (revoked_at (clock w)) (table w)) w)).

(** Modelled from the spec: revokes every active record of a user. *)
Definition revokeAllForUser (userId : string) : Eff World unit :=
  query (fun w =>
    (tt, with_table
           (update_where (fun r => String.eqb (rec_userId r) userId)
              (revoked_at (clock w)) (table w)) w)).

(** Modelled from the spec: sets [replacedByRecordId] on the old record. *)
Definition markAsReplaced (oldId newId : string) : Eff World unit :=
  query (fun w =>
    (tt, with_table
           (update_where (fun r => String.eqb (rec_id r) oldId)
              (replaced_by newId) (table w)) w)).

Definition model_tokenRepo : RefreshTokenRepository World :=
  {| tokenRepo_createRefreshToken := createRefreshToken;
     tokenRepo_save := save;
     tokenRepo_verifyRefreshToken := verifyRefreshToken;
     tokenRepo_findByUserId := findByUserId;
     tokenRepo_findAll := findAll;
     tokenRepo_findMatchedToken := findMatchedToken;
     tokenRepo_revoke := revoke;
     tokenRepo_revokeAllForUser := revokeAllForUser;
     tokenRepo_markAsReplaced := markAsReplaced |}.

Definition service : AuthService World :=
  {| users := model_users;
     jwt := model_jwt;
     tokenRepo := model_tokenRepo;
     bcrypt := model_bcrypt;
     Date_now := clock |}.

(** *** Sample data *)
Definition alice : User :=
  {| user_id := "u1"; user_email := "alice@example.com";
     user_displayName := Some "Alice";
     user_passwordHash := "$2b$12$correct horse" |}.

Definition bob : User :=
  {| user_id := "u2"; user_email := "bob@example.com";
     user_displayName := None;
     user_passwordHash := "$2b$12$hunter2" |}.

(** A row whose password hash was lost: [bcrypt.compare] rejects it. *)
Definition carol : User :=
  {| user_id := "u3"; user_email := "carol@example.com";
     user_displayName := None;
     user_passwordHash := "" |}.

Definition alice_info : UserInfo :=
  {| id := "u1"; email := "alice@example.com"; displayName := Some "Alice" |}.

Definition bob_info : UserInfo :=
  {| id := "u2"; email := "bob@example.com"; displayName := None |}.

Definition world0 : World :=
  {| clock := 1700000000000;
     directory := [alice; bob; carol];
     table := [];
     minted := [];
     serial := 0;
     store_down := false |}.

(** The world after [run], whatever it returned. *)
Definition after {A} (run : Eff World A) (w : World) : World := snd (run w).

(** Alice has logged in once: access token jwt.0, refresh token jwt.1,
    record rt_2. *)
Definition world1 : World := after (issueTokens service alice_info None) world0.

Definition alice_payload : TokenPayload :=
  {| sub := "u1"; payload_email := "alice@example.com";
     payload_displayName := Some "Alice"; typ := Some "refresh" |}.

(** Alice has refreshed once: jwt.1 was rotated into jwt.4 (record rt_5). *)
Definition world2 : World := after (refresh service "jwt.1" None) world1.

(** Alice has logged in a second time (refresh token jwt.4, record rt_5) and
    has then logged out of her first session. *)
Definition world_two_sessions : World :=
  after (issueTokens service alice_info None) world1.

Definition world_logged_out : World :=
  after (logout service "jwt.1") world_two_sessions.

Definition expiring_at (t : Z) (r : RefreshTokenRecord) : RefreshTokenRecord :=
  {| rec_id := rec_id r; rec_userId := rec_userId r; rec_token := rec_token r;
     rec_issuedAt := rec_issuedAt r; rec_expiresAt := t;
     rec_revokedAt := rec_revokedAt r; rec_replacedById := rec_replacedById r;
     rec_meta := rec_meta r |}.

(** As [world_two_sessions], but the store-side expiry of every record is
    the present instant, while the signed tokens still verify. *)
Definition world_expiring_now : World :=
  with_table (map (expiring_at (clock world_two_sessions))
                (table world_two_sessions))
    world_two_sessions.

(** As [world_expiring_now], after a logout of the first session: its record
    is both revoked and expired. *)
Definition world_revoked_and_expired : World :=
  after (logout service "jwt.1") world_expiring_now.

(** As [world1], but Alice's row has left the user directory. *)
Definition world_without_alice : World :=
  {| clock := clock world1; directory := [bob; carol]; table := table world1;
     minted := minted world1; serial := serial world1;
     store_down := store_down world1 |}.

(** The record of a table with the given id. *)
Definition record_of (recordId : string) (w : World) : option RefreshTokenRecord :=
  find (fun r => String.eqb (rec_id r) recordId) (table w).

(** The record of Alice's first session, as [world1] holds it. *)
Definition record_rt_2 : RefreshTokenRecord :=
  {| rec_id := "rt_2"; rec_userId := "u1"; rec_token := "$2b$12$jwt.1";
     rec_issuedAt := 1700000000000; rec_expiresAt := 1700604800000;
     rec_revokedAt := None; rec_replacedById := None; rec_meta := None |}.

(** The record a rotation or a second login adds to [world1]. *)
Definition record_rt_5 : RefreshTokenRecord :=
  {| rec_id := "rt_5"; rec_userId := "u1"; rec_token := "$2b$12$jwt.4";
     rec_issuedAt := 1700000000000; rec_expiresAt := 1700604800000;
     rec_revokedAt := None; rec_replacedById := None; rec_meta := None |}.
End Model.

(** ** auth.controller.ts

    The HTTP boundary that calls the service.  The response object is a
    piece of state beside the world: the list of the [res.cookie] calls made
    on it, in order.  What the controller imports from files that are not
    among the sources (the cookie configuration, [extractRequestMetadata],
    [createSuccessResponse], [UsersService.createUser]) is taken as a
    parameter, each a computation so that it may read the world or throw. *)

(** [String.prototype.includes]. *)
Fixpoint includes (s searchString : string) : bool :=
  String.prefix searchString s
  || match s with
     | EmptyString => false
     | String _ rest => includes rest searchString
     end.

(** The [name] and [message] of an [Error]. *)
Record ErrorView : Type := {
  view_name : string;
  view_message : string
}.

(** [error.name] and [error.message].  Every [exn] is an [Error], so the
    test [error instanceof Error] of the controller holds of each and is
    not written out; a thrown value that is no [Error] has no counterpart
    in [exn].  A Nest exception built from a string
    has that string as its message and its class name as its name; the
    three refresh-token classes are declared outside the sources, so their
    texts come from [declared]. *)
Definition error_name (declared : exn -> ErrorView) (error : exn) : string :=
  match error with
  | UnauthorizedException _ => "UnauthorizedException"
  | InternalServerErrorException _ => "InternalServerErrorException"
  | JsError name _ => name
  | _ => view_name (declared error)
  end.

Definition error_message (declared : exn -> ErrorView) (error : exn) : string :=
  match error with
  | UnauthorizedException message => message
  | InternalServerErrorException message => message
  | JsError _ message => message
  | _ => view_message (declared error)
  end.

(** What the controller reads of an express [Request]: the parsed cookies
    (absent without a cookie parser), the user a guard attached, and the
    connection data a metadata extractor may look at. *)
Record Request : Type := {
  req_cookies : option (list (string * string));
  req_user : option UserInfo;
  req_ip : option string;
  req_headers : list (string * string)
}.

(** The body of [POST /auth/register]. *)
Record RegisterDto : Type := {
  dto_email : string;
  dto_password : string;
  dto_displayName : option string
}.

(** The [responseData] of [register] and [login]. *)
Record AuthResponseData : Type := {
  response_user : UserInfo;
  response_access_token : string;
  response_refresh_token : string;
  response_refresh_token_id : string
}.

(** One call [res.cookie(name, value, options)]. *)
Record SetCookie (Options : Type) : Type := {
  cookie_name : string;
  cookie_value : string;
  cookie_options : Options
}.
Arguments cookie_name {Options}.
Arguments cookie_value {Options}.
Arguments cookie_options {Options}.

(** The controller's injected [AuthService] and the imports it calls. *)
Record AuthController (W Options : Type) (ApiResponse : Type -> Type) : Type := {
  auth : AuthService W;
  users_createUser : string -> string -> option string -> Eff W User;
  extractRequestMetadata : Request -> Eff W RequestMetadata;
  createSuccessResponse :
    forall D : Type, D -> string -> option Z -> Eff W (ApiResponse D);
  COOKIE_NAMES_REFRESH_TOKEN : string;
  getRefreshTokenCookieOptions : Eff W Options;
  getClearRefreshTokenCookieOptions : Eff W Options;
  declared_exceptions : exn -> ErrorView
}.
Arguments auth {W Options ApiResponse}.
Arguments users_createUser {W Options ApiResponse}.
Arguments extractRequestMetadata {W Options ApiResponse}.
Arguments createSuccessResponse {W Options ApiResponse} _ {D}.
Arguments COOKIE_NAMES_REFRESH_TOKEN {W Options ApiResponse}.
Arguments getRefreshTokenCookieOptions {W Options ApiResponse}.
Arguments getClearRefreshTokenCookieOptions {W Options ApiResponse}.
Arguments declared_exceptions {W Options ApiResponse}.

(** [HttpStatus.CREATED] *)
Definition HttpStatus_CREATED : Z := 201.

(** A computation on the world, run beside the response object. *)
Definition lift {W R A} (call : Eff W A) : Eff (W * R) A :=
  fun '(w, res) =>
    let '(out, w') := call w in
    (out, (w', res)).

(** [res.cookie(name, value, options)] *)
Definition res_cookie {W Options} (name value : string) (options : Options)
  : Eff (W * list (SetCookie Options)) unit :=
  fun '(w, res) =>
    (Returned tt,
     (w, res ++ [{| cookie_name := name; cookie_value := value;
                    cookie_options := options |}])).

(** [req.cookies?.[name]] *)
Fixpoint lookup_cookie (cookies : list (string * string)) (name : string)
  : option string :=
  match cookies with
  | [] => None
  | (k, v) :: rest => if String.eqb k name then Some v else lookup_cookie rest name
  end.

Definition cookie_of (req : Request) (name : string) : option string :=
  match req_cookies req with
  | Some cookies => lookup_cookie cookies name
  | None => None
  end.

(** The cookie's value when it is truthy: present and not the empty
    string. *)
Definition truthy_cookie (req : Request) (name : string) : option string :=
  match cookie_of req name with
  | Some value => if String.eqb value "" then None else Some value
  | None => None
  end.

Module Controller.
Section Controller.
Context {W Options : Type} {ApiResponse : Type -> Type}.
Variable this : AuthController W Options ApiResponse.

Definition register (dto : RegisterDto) (req : Request)
  : Eff (W * list (SetCookie Options)) (ApiResponse AuthResponseData) :=
  try_catch
    (user <- lift (users_createUser this (dto_email dto) (dto_password dto)
                     (dto_displayName dto)) ;;
     meta <- lift (extractRequestMetadata this req) ;;
     tokens <- lift (issueTokens (auth this)
                       {| id := user_id user; email := user_email user;
                          displayName := None |}
                       (Some meta)) ;;
     (* Send refresh token via HttpOnly cookie *)
     options <- lift (getRefreshTokenCookieOptions this) ;;
     res_cookie (COOKIE_NAMES_REFRESH_TOKEN this) (refresh_token tokens) options ;;;
     lift (createSuccessResponse this
             {| response_user :=
                  {| id := user_id user; email := user_email user;
                     displayName := user_displayName user |};
                response_access_token := access_token tokens;
                response_refresh_token := refresh_token tokens;
                response_refresh_token_id := refresh_token_id tokens |}
             "User registered successfully" (Some HttpStatus_CREATED)))
    (fun _error =>
       throw (InternalServerErrorException "Failed to register user")).

(** [req.user] is what the local guard attached; reading [req.user.id]
    without it is a [TypeError]. *)
Definition login (req : Request)
  : Eff (W * list (SetCookie Options)) (ApiResponse AuthResponseData) :=
  try_catch
    (meta <- lift (extractRequestMetadata this req) ;;
     match req_user req with
     | None =>
         throw (JsError "TypeError"
                  "Cannot read properties of undefined (reading 'id')")
     | Some user =>
         tokens <- lift (issueTokens (auth this)
                           {| id := id user; email := email user;
                              displayName := None |}
                           (Some meta)) ;;
         (* Send refresh token via HttpOnly cookie *)
         options <- lift (getRefreshTokenCookieOptions this) ;;
         res_cookie (COOKIE_NAMES_REFRESH_TOKEN this) (refresh_token tokens)
           options ;;;
         lift (createSuccessResponse this
                 {| response_user :=
                      {| id := id user; email := email user;
                         displayName := displayName user |};
                    response_access_token := access_token tokens;
                    response_refresh_token := refresh_token tokens;
                    response_refresh_token_id := refresh_token_id tokens |}
                 "Login successful" None)
     end)
    (fun _error => throw (InternalServerErrorException "Failed to login")).

Definition refresh (req : Request)
  : Eff (W * list (SetCookie Options)) (ApiResponse TokenPair) :=
  try_catch
    ((* Get refresh token from cookie *)
     match truthy_cookie req (COOKIE_NAMES_REFRESH_TOKEN this) with
     | None => throw (InternalServerErrorException "Refresh token not found")
     | Some refreshToken =>
         meta <- lift (extractRequestMetadata this req) ;;
         tokens <- lift (refresh (auth this) refreshToken (Some meta)) ;;
         (* Send new refresh token via HttpOnly cookie *)
         options <- lift (getRefreshTokenCookieOptions this) ;;
         res_cookie (COOKIE_NAMES_REFRESH_TOKEN this) (refresh_token tokens)
           options ;;;
         lift (createSuccessResponse this
                 {| access_token := access_token tokens;
                    refresh_token := refresh_token tokens;
                    refresh_token_id := refresh_token_id tokens |}
                 "Token refreshed successfully" None)
     end)
    (fun error =>
       (* Re-throw auth exceptions as-is *)
       if String.eqb (error_name (declared_exceptions this) error)
            "UnauthorizedException"
          || includes (error_message (declared_exceptions this) error) "token"
       then throw error
       else throw (InternalServerErrorException "Failed to refresh token")).

Definition logout (req : Request)
  : Eff (W * list (SetCookie Options)) (ApiResponse LogoutResult) :=
  try_catch
    ((* Get refresh token from cookie *)
     match truthy_cookie req (COOKIE_NAMES_REFRESH_TOKEN this) with
     | Some refreshToken =>
         lift (logout (auth this) refreshToken) ;;; ret tt
     | None => ret tt
     end ;;;
     (* Clear refresh token cookie *)
     options <- lift (getClearRefreshTokenCookieOptions this) ;;
     res_cookie (COOKIE_NAMES_REFRESH_TOKEN this) "" options ;;;
     lift (createSuccessResponse this {| ok := true |} "Logout successful" None))
    (fun _error => throw (InternalServerErrorException "Failed to logout")).

(** [me] is not asynchronous and has no [try]: whatever
    [createSuccessResponse] throws leaves it as it is. *)
Definition me (req : Request)
  : Eff (W * list (SetCookie Options)) (ApiResponse (option UserInfo)) :=
  lift (createSuccessResponse this (req_user req) "Requst Successful" None).
End Controller.
End Controller.

(** ** A reference boundary

    A concrete controller over the reference world, to run the boundary and
    to show that the hypotheses of the general statements can be met. *)
Module Boundary.
Import Model.

(** What the reference [createSuccessResponse] builds. *)
Record Envelope (D : Type) : Type := {
  statusCode : Z;
  message : string;
  data : D
}.
Arguments statusCode {D}.
Arguments message {D}.
Arguments data {D}.

(** A user directory that creates rows: the e-mail is unique, the password
    is stored hashed. *)
Definition createUser (email_ password : string) (displayName_ : option string)
  : Eff World User :=
  passwordHash <- BcryptUtil.hashPassword model_bcrypt password
                    BcryptUtil.default_rounds ;;
  fun w =>
    if store_down w then (Thrown DB_ERROR, w)
    else if existsb (fun u => String.eqb (user_email u) email_) (directory w)
    then (Thrown (JsError "PrismaClientKnownRequestError"
                    "Unique constraint failed on the fields: (`email`)"), w)
    else
      let user := {| user_id := ("u_" ++ decimal (serial w))%string;
                     user_email := email_;
                     user_displayName := displayName_;
                     user_passwordHash := passwordHash |} in
      (Returned user,
       {| clock := clock w; directory := directory w ++ [user];
          table := table w; minted := minted w; serial := S (serial w);
          store_down := store_down w |}).

Definition metadata_of (req : Request) : RequestMetadata :=
  {| ip := req_ip req;
     userAgent := lookup_cookie (req_headers req) "user-agent" |}.

(** Texts for the three refresh-token exceptions. *)
Definition exception_texts (error : exn) : ErrorView :=
  match error with
  | RefreshTokenReusedException =>
      {| view_name := "RefreshTokenReusedException";
         view_message := "Refresh token reuse detected" |}
  | RefreshTokenRevokedException =>
      {| view_name := "RefreshTokenRevokedException";
         view_message := "Refresh token has been revoked" |}
  | RefreshTokenExpiredException =>
      {| view_name := "RefreshTokenExpiredException";
         view_message := "Refresh token has expired" |}
  | _ => {| view_name := "Error"; view_message := "" |}
  end.

Definition controller_of (service_ : AuthService World)
  : AuthController World string Envelope :=
  {| auth := service_;
     users_createUser := createUser;
     extractRequestMetadata := fun req => ret (metadata_of req);
     createSuccessResponse := fun D data_ message_ status =>
       ret {| statusCode := match status with Some s => s | None => 200 end;
              message := message_;
              data := data_ |};
     COOKIE_NAMES_REFRESH_TOKEN := "refresh_token";
     getRefreshTokenCookieOptions := ret "HttpOnly; Max-Age=604800";
     getClearRefreshTokenCookieOptions := ret "HttpOnly; Max-Age=0";
     declared_exceptions := exception_texts |}.

Definition controller : AuthController World string Envelope :=
  controller_of service.

(** A store whose writes are refused while its reads work. *)
Definition read_only_tokenRepo : RefreshTokenRepository World :=
  {| tokenRepo_createRefreshToken := createRefreshToken;
     tokenRepo_save := fun _ _ _ => throw DB_ERROR;
     tokenRepo_verifyRefreshToken := verifyRefreshToken;
     tokenRepo_findByUserId := findByUserId;
     tokenRepo_findAll := findAll;
     tokenRepo_findMatchedToken := findMatchedToken;
     tokenRepo_revoke := fun _ => throw DB_ERROR;
     tokenRepo_revokeAllForUser := fun _ => throw DB_ERROR;
     tokenRepo_markAsReplaced := fun _ _ => throw DB_ERROR |}.

Definition read_only_service : AuthService World :=
  {| users := model_users;
     jwt := model_jwt;
     tokenRepo := read_only_tokenRepo;
     bcrypt := model_bcrypt;
     Date_now := clock |}.

(** A request carrying the given refresh-token cookie. *)
Definition request_with (token : string) : Request :=
  {| req_cookies := Some [("theme", "dark"); ("refresh_token", token)];
     req_user := None;
     req_ip := Some "203.0.113.7";
     req_headers := [("user-agent", "curl/8.5.0")] |}.

(** A request with parsed cookies, none of them the refresh token. *)
Definition request_without_cookie : Request :=
  {| req_cookies := Some [("theme", "dark")];
     req_user := None;
     req_ip := Some "203.0.113.7";
     req_headers := [("user-agent", "curl/8.5.0")] |}.

(** A request the local guard let through for Alice. *)
Definition request_of_alice : Request :=
  {| req_cookies := None;
     req_user := Some alice_info;
     req_ip := Some "203.0.113.7";
     req_headers := [("user-agent", "curl/8.5.0")] |}.

Definition curl_metadata : RequestMetadata :=
  {| ip := Some "203.0.113.7"; userAgent := Some "curl/8.5.0" |}.

(** Alice's row after she changed her display name. *)
Definition alice_renamed : User :=
  {| user_id := "u1"; user_email := "alice@example.com";
     user_displayName := Some "Alice B.";
     user_passwordHash := "$2b$12$correct horse" |}.

(** Dave's registration, and his row once created in [world1]. *)
Definition dave_dto : RegisterDto :=
  {| dto_email := "dave@example.com"; dto_password := "pw";
     dto_displayName := Some "Dave" |}.

Definition dave : User :=
  {| user_id := "u_3"; user_email := "dave@example.com";
     user_displayName := Some "Dave"; user_passwordHash := "$2b$12$pw" |}.

Definition world_with_dave : World :=
  after (createUser "dave@example.com" "pw" (Some "Dave")) world1.

(** As [world1], with Alice's row renamed since her login. *)
Definition world_renamed : World :=
  {| clock := clock world1; directory := [alice_renamed; bob; carol];
     table := table world1; minted := minted world1; serial := serial world1;
     store_down := store_down world1 |}.
End Boundary.

(** ** Vocabulary of the statements *)

(** The message of the one exception [verifyRefreshToken] throws. *)
Definition INVALID_OR_EXPIRED : exn :=
  UnauthorizedException "Invalid or expired refresh token".

(** The one exception [validateUser] throws. *)
Definition FAILED_TO_VALIDATE : exn :=
  InternalServerErrorException "Failed to validate user".

(** What [marks_follow_saves] computes, as a statement about the trace:
    wherever the trace splits around a [markAsReplaced] event, nothing
    follows the event, and the event right before it is a [save] that
    returned the record whose id the call was given. *)
Definition saved_before_marked (events : list Event) : Prop :=
  forall front oldId newId res back,
    events = front ++ EvMarkAsReplaced oldId newId res :: back ->
    back = [] /\
    exists front' userId rawToken meta saved,
      front = front' ++ [EvSave userId rawToken meta (Returned saved)] /\
      newId = rec_id saved.

(** The events of the calls that write to the store. *)
Definition writes (ev : Event) : bool :=
  match ev with
  | EvSave _ _ _ _ | EvRevoke _ _ | EvRevokeAllForUser _ _
  | EvMarkAsReplaced _ _ _ => true
  | _ => false
  end.

(** The exception [refresh] turns every failure it does not know into. *)
Definition FAILED_TO_REFRESH : exn :=
  InternalServerErrorException "Failed to refresh tokens".

(** The one exception [issueTokens] throws. *)
Definition FAILED_TO_ISSUE : exn :=
  InternalServerErrorException "Failed to issue tokens".

(** The one exception [logout] throws. *)
Definition FAILED_TO_LOGOUT : exn :=
  InternalServerErrorException "Failed to logout".

(** The one exception the controller's [register] throws. *)
Definition FAILED_TO_REGISTER : exn :=
  InternalServerErrorException "Failed to register user".

(** * Properties *)

Import Model.

(** ** The trace wrapper *)

(** Unfolds the monad, the utilities and the methods down to the
    collaborator calls. *)
Ltac unfold_service :=
  unfold trace_of, refresh, refresh_body, logout, validateUser, issueTokens,
    TokenUtil.signAccessToken, TokenUtil.signRefreshToken,
    TokenUtil.verifyRefreshToken, TokenUtil.decodeToken,
    BcryptUtil.comparePassword, BcryptUtil.compareToken, BcryptUtil.hashToken,
    BcryptUtil.hashPassword, try_catch, bind, ret, throw, traced, logged;
  cbn.

(** Splits on the outcome of the next collaborator call, innermost first. *)
Ltac split_call :=
  match goal with
  | |- context [match ?call with pair _ _ => _ end] =>
      lazymatch call with
      | context [match _ with _ => _ end] => fail
      | _ => destruct call as [[?|?] ?] eqn:?
      end
  end; cbn.

(** A string equals itself, also for [String.eqb]. *)
Lemma eqb_same (s : string) : String.eqb s s = true.
Proof. apply String.eqb_refl. Qed.

Lemma marks_follow_saves_split (front : list Event) :
  forall previous oldId newId res back,
    marks_follow_saves previous (front ++ EvMarkAsReplaced oldId newId res :: back)
      = true ->
    back = [] /\
    exists front' userId rawToken meta saved,
      match previous with Some p => [p] | None => [] end ++ front
        = front' ++ [EvSave userId rawToken meta (Returned saved)] /\
      newId = rec_id saved.
Proof.
  induction front as [|ev front IH]; intros previous oldId newId res back H.
  - cbn in H.
    destruct previous as [[]|]; try discriminate.
    destruct res0; try discriminate.
    destruct back; try discriminate.
    split; [reflexivity|].
    exists [], userId, rawToken, meta, a. split; [reflexivity|].
    now apply String.eqb_eq.
  - assert (Hrest : marks_follow_saves (Some ev)
                      (front ++ EvMarkAsReplaced oldId newId res :: back) = true).
    { destruct ev; cbn in H; try exact H.
      destruct previous as [[]|]; try discriminate.
      destruct res1; try discriminate.
      destruct front; discriminate. }
    destruct (IH _ _ _ _ _ Hrest) as (Hback & front' & u & r & m & s & Hsplit & Hid).
    split; [exact Hback|].
    exists (match previous with Some p => [p] | None => [] end ++ front'), u, r, m, s.
    split; [|exact Hid].
    rewrite <- app_assoc, <- Hsplit. reflexivity.
Qed.

Lemma marks_follow_saves_sound (events : list Event) :
  marks_follow_saves None events = true -> saved_before_marked events.
Proof.
  intros H front oldId newId res back ->.
  exact (marks_follow_saves_split front None oldId newId res back H).
Qed.

(** The wrapper only observes: [refresh] on the traced service returns what
    it returns on the service itself, leaves the same world, and extends
    the log it was given. *)
Lemma traced_refresh_erasure {W} (this : AuthService W) raw meta w log :
  refresh (traced this) raw meta (w, log) =
    (fst (refresh this raw meta w),
     (snd (refresh this raw meta w),
      log ++ trace_of (refresh (traced this) raw meta) w)).
Proof.
  unfold_service.
  repeat split_call; try reflexivity.
  all: repeat match goal with
         | |- context [match ?o with Some _ => _ | None => _ end] =>
             destruct o eqn:?; cbn
         | |- context [if ?b then _ else _] => destruct b eqn:?; cbn
         | _ => split_call
         end;
       rewrite <- ?app_assoc; try reflexivity.
Qed.

(** ** Token Codec: [verifyRefreshToken] *)

(** C8. For every token and secret, [verifyRefreshToken] either returns the
    claims [jwtService.verifyAsync] resolved to, or throws one and the same
    [UnauthorizedException], whatever the library rejected the token with:
    the caller cannot tell an invalid signature from a malformed or an
    expired token. *)
Theorem verifyRefreshToken_returns_claims_or_one_error
    {W} (jwtService : JwtService W) (token secret : string) (w : W) :
  (exists claims w',
      jwt_verifyAsync jwtService token secret w = (Returned claims, w') /\
      TokenUtil.verifyRefreshToken jwtService token secret w
        = (Returned claims, w'))
  \/
  (exists cause w',
      jwt_verifyAsync jwtService token secret w = (Thrown cause, w') /\
      TokenUtil.verifyRefreshToken jwtService token secret w
        = (Thrown INVALID_OR_EXPIRED, w')).
Proof.
  unfold TokenUtil.verifyRefreshToken, try_catch, throw.
  destruct (jwt_verifyAsync jwtService token secret w) as [[claims|cause] w'].
  - left. exists claims, w'. split; reflexivity.
  - right. exists cause, w'. split; reflexivity.
Qed.

(** On the reference library the three causes are three different errors,
    and [verifyRefreshToken] maps each to the same exception: a string never
    signed, a token signed with another secret, and a token past its
    expiration. *)
Example verifyRefreshToken_three_causes_one_error :
  jwt_verifyAsync model_jwt "garbage" REFRESH_SECRET world1
    = (Thrown (JsError "JsonWebTokenError" "jwt malformed"), world1) /\
  jwt_verifyAsync model_jwt "jwt.0" REFRESH_SECRET world1
    = (Thrown (JsError "JsonWebTokenError" "invalid signature"), world1) /\
  jwt_verifyAsync model_jwt "jwt.1" REFRESH_SECRET (tick 604800000 world1)
    = (Thrown (JsError "TokenExpiredError" "jwt expired"), tick 604800000 world1) /\
  fst (TokenUtil.verifyRefreshToken model_jwt "garbage" REFRESH_SECRET world1)
    = Thrown INVALID_OR_EXPIRED /\
  fst (TokenUtil.verifyRefreshToken model_jwt "jwt.0" REFRESH_SECRET world1)
    = Thrown INVALID_OR_EXPIRED /\
  fst (TokenUtil.verifyRefreshToken model_jwt "jwt.1" REFRESH_SECRET
         (tick 604800000 world1))
    = Thrown INVALID_OR_EXPIRED /\
  fst (TokenUtil.verifyRefreshToken model_jwt "jwt.1" REFRESH_SECRET world1)
    = Returned {| sub := "u1"; payload_email := "alice@example.com";
                  payload_displayName := Some "Alice"; typ := Some "refresh" |}.
Proof. vm_compute. repeat split; reflexivity. Qed.

(** ** Token Codec: [extractTokenExpiration] *)

(** What [extractTokenExpiration] returns, case by case, on a clock not
    before the epoch: a numeric [exp] other than 0 as it is; seven days
    from now, in seconds, where there is no [exp], where it is not a
    number, and where it is the number 0, which is falsy in the guard
    [decodedToken?.exp && ...]; and never less than a numeric [exp]. *)
Lemma extractTokenExpiration_cases (now : Z) (decodedToken : JsVal) :
  0 <= now ->
  let exp := TokenUtil.optional_member decodedToken "exp" in
  let expiry := TokenUtil.extractTokenExpiration now decodedToken in
  (forall n, exp = JsNumber n -> n <= expiry) /\
  (forall n, exp = JsNumber n -> n <> 0 -> expiry = n) /\
  ((forall n, exp = JsNumber n -> n = 0) -> expiry = now / 1000 + 604800).
Proof.
  intros Hnow. cbv zeta.
  unfold TokenUtil.extractTokenExpiration, TokenUtil.seven_days_from.
  assert (0 <= now / 1000) by (apply Z.div_pos; lia).
  destruct (TokenUtil.optional_member decodedToken "exp")
    as [| |b|k|s|fields]; cbn; rewrite ?andb_false_r, ?andb_true_r.
  all: try (split; [|split]; [discriminate|discriminate|intros _; reflexivity]).
  destruct (Z.eqb_spec k 0) as [->|Hk]; cbn.
  - split; [|split].
    + intros n Heq. injection Heq as <-. lia.
    + intros n Heq Hn. injection Heq as <-. contradiction.
    + intros _. reflexivity.
  - split; [|split].
    + intros m Heq. injection Heq as <-. lia.
    + intros m Heq _. injection Heq as <-. reflexivity.
    + intros Hzero. specialize (Hzero k eq_refl). contradiction.
Qed.

(** The one numeric [exp] that is not returned is 0.  No token signed with
    a lifetime on a clock not before the epoch carries it. *)
Example extractTokenExpiration_zero_exp_takes_default :
  TokenUtil.optional_member (JsObject [("exp", JsNumber 0)]) "exp" = JsNumber 0 /\
  TokenUtil.extractTokenExpiration 1700000000000 (JsObject [("exp", JsNumber 0)])
    = 1700604800.
Proof. split; reflexivity. Qed.

(** ** Session Manager: [validateUser] *)

(** C6. [validateUser] returns the identity of the user found under the
    e-mail when [bcrypt.compare] accepts the password against the stored
    hash; it returns null, the same value, when the password does not match
    and when no user has the e-mail; and a look-up or a comparison that
    throws surfaces as the one [InternalServerErrorException]. *)
Theorem validateUser_identity_or_null
    {W} (this : AuthService W) (email password : string) (w : W) :
  (forall user w1 w2,
      users_findByEmail (users this) email w = (Returned (Some user), w1) ->
      bcrypt_compare (bcrypt this) password (user_passwordHash user) w1
        = (Returned true, w2) ->
      validateUser this email password w
        = (Returned (Some {| id := user_id user;
                             email := user_email user;
                             displayName := user_displayName user |}), w2))
  /\
  (forall user w1 w2,
      users_findByEmail (users this) email w = (Returned (Some user), w1) ->
      bcrypt_compare (bcrypt this) password (user_passwordHash user) w1
        = (Returned false, w2) ->
      validateUser this email password w = (Returned None, w2))
  /\
  (forall w1,
      users_findByEmail (users this) email w = (Returned None, w1) ->
      validateUser this email password w = (Returned None, w1))
  /\
  (forall cause w1,
      users_findByEmail (users this) email w = (Thrown cause, w1) ->
      validateUser this email password w = (Thrown FAILED_TO_VALIDATE, w1))
  /\
  (forall user w1 cause w2,
      users_findByEmail (users this) email w = (Returned (Some user), w1) ->
      bcrypt_compare (bcrypt this) password (user_passwordHash user) w1
        = (Thrown cause, w2) ->
      validateUser this email password w = (Thrown FAILED_TO_VALIDATE, w2)).
Proof.
  repeat split; intros; unfold_service;
    repeat match goal with H : _ = (_, _) |- _ => rewrite H; clear H; cbn end;
    reflexivity.
Qed.

(** The five cases of C6 on the reference world: Alice's password, a wrong
    password, an unknown e-mail, the directory down, and a row whose hash
    [bcrypt.compare] rejects. *)
Lemma validateUser_identity_or_null_witness :
  fst (validateUser service "alice@example.com" "correct horse" world1)
    = Returned (Some alice_info) /\
  fst (validateUser service "alice@example.com" "wrong" world1) = Returned None /\
  fst (validateUser service "nobody@example.com" "wrong" world1) = Returned None /\
  fst (validateUser service "alice@example.com" "correct horse"
         (with_store_down true world1)) = Thrown FAILED_TO_VALIDATE /\
  fst (validateUser service "carol@example.com" "anything" world1)
    = Thrown FAILED_TO_VALIDATE.
Proof.
  split; [|split; [|split; [|split]]].
  - rewrite (proj1 (validateUser_identity_or_null service
                      "alice@example.com" "correct horse" world1)
               alice world1 world1); reflexivity.
  - rewrite (proj1 (proj2 (validateUser_identity_or_null service
                      "alice@example.com" "wrong" world1))
               alice world1 world1); reflexivity.
  - rewrite (proj1 (proj2 (proj2 (validateUser_identity_or_null service
                      "nobody@example.com" "wrong" world1)))
               world1); reflexivity.
  - rewrite (proj1 (proj2 (proj2 (proj2 (validateUser_identity_or_null service
                      "alice@example.com" "correct horse"
                      (with_store_down true world1)))))
               DB_ERROR (with_store_down true world1)); reflexivity.
  - rewrite (proj2 (proj2 (proj2 (proj2 (validateUser_identity_or_null service
                      "carol@example.com" "anything" world1))))
               carol world1
               (JsError "Error" "data and hash arguments required") world1);
      reflexivity.
Defined.

(** ** Session Manager: [refresh] *)

(** Replays the calls whose outcomes the hypotheses give. *)
Ltac replay :=
  unfold_service;
  repeat match goal with
    | H : _ = _ |- _ => rewrite H; cbn
    end.

(** C1. When the raw token's signature verifies and [findMatchedToken] finds,
    among the records [findByUserId] returned for the token's subject, none
    that matches the raw token, [refresh] calls [revokeAllForUser] for that
    subject and then throws [RefreshTokenReusedException], which its own
    catch block lets through: these four calls are all it makes, and the
    world is left as the bulk revocation left it. *)
Theorem refresh_unmatched_revokes_all_then_reused
    {W} (this : AuthService W) (rawRefreshToken : string)
    (meta : option RequestMetadata) (w : W)
    (payload : TokenPayload) (w1 : W)
    (tokens : list RefreshTokenRecord) (w2 w3 w4 : W) :
  tokenRepo_verifyRefreshToken (tokenRepo this) rawRefreshToken w
    = (Returned payload, w1) ->
  tokenRepo_findByUserId (tokenRepo this) (sub payload) w1
    = (Returned tokens, w2) ->
  tokenRepo_findMatchedToken (tokenRepo this) tokens rawRefreshToken w2
    = (Returned None, w3) ->
  tokenRepo_revokeAllForUser (tokenRepo this) (sub payload) w3
    = (Returned tt, w4) ->
  refresh this rawRefreshToken meta w = (Thrown RefreshTokenReusedException, w4)
  /\
  trace_of (refresh (traced this) rawRefreshToken meta) w =
    [EvVerifyRefreshToken rawRefreshToken (Returned payload);
     EvFindByUserId (sub payload) (Returned tokens);
     EvFindMatchedToken tokens rawRefreshToken (Returned None);
     EvRevokeAllForUser (sub payload) (Returned tt)].
Proof.
  intros Hverify Hfind Hmatch Hrevoke.
  split; replay; reflexivity.
Qed.

(** C1 on the reference world: jwt.1 was rotated into jwt.4, so presenting
    jwt.1 again matches nothing; every record of Alice ends revoked. *)
Lemma refresh_unmatched_revokes_all_then_reused_witness :
  (refresh service "jwt.1" None world2
     = (Thrown RefreshTokenReusedException, after (revokeAllForUser "u1") world2)
   /\
   trace_of (refresh (traced service) "jwt.1" None) world2 =
     [EvVerifyRefreshToken "jwt.1" (Returned alice_payload);
      EvFindByUserId "u1" (Returned (table world2));
      EvFindMatchedToken (table world2) "jwt.1" (Returned None);
      EvRevokeAllForUser "u1" (Returned tt)])
  /\
  forallb (fun r => match rec_revokedAt r with Some _ => true | None => false end)
    (table (after (refresh service "jwt.1" None) world2)) = true.
Proof.
  split; [|reflexivity].
  apply (refresh_unmatched_revokes_all_then_reused service "jwt.1" None world2
           alice_payload world2 (table world2) world2 world2
           (after (revokeAllForUser "u1") world2));
    reflexivity.
Defined.

(** C5. When the record matched to the raw token has [revokedAt] set,
    [refresh] throws [RefreshTokenRevokedException] right after the three
    look-ups: it calls no operation of the store that writes (no [revoke],
    no [revokeAllForUser], no [save], no [markAsReplaced]), so the world is
    the one the look-ups left, and neither the matched record nor any other
    record of the subject is touched. *)
Theorem refresh_revoked_throws_and_writes_nothing
    {W} (this : AuthService W) (rawRefreshToken : string)
    (meta : option RequestMetadata) (w : W)
    (payload : TokenPayload) (w1 : W)
    (tokens : list RefreshTokenRecord) (w2 : W)
    (matched : RefreshTokenRecord) (w3 : W) (revokedAt : Z) :
  tokenRepo_verifyRefreshToken (tokenRepo this) rawRefreshToken w
    = (Returned payload, w1) ->
  tokenRepo_findByUserId (tokenRepo this) (sub payload) w1
    = (Returned tokens, w2) ->
  tokenRepo_findMatchedToken (tokenRepo this) tokens rawRefreshToken w2
    = (Returned (Some matched), w3) ->
  rec_revokedAt matched = Some revokedAt ->
  refresh this rawRefreshToken meta w = (Thrown RefreshTokenRevokedException, w3)
  /\
  trace_of (refresh (traced this) rawRefreshToken meta) w =
    [EvVerifyRefreshToken rawRefreshToken (Returned payload);
     EvFindByUserId (sub payload) (Returned tokens);
     EvFindMatchedToken tokens rawRefreshToken (Returned (Some matched))].
Proof.
  intros Hverify Hfind Hmatch Hrevoked.
  split; replay; reflexivity.
Qed.

(** C5 on the reference world (the spec's scenario D): Alice has two
    sessions and logged out of the first; refreshing with the first
    session's token throws, and the table, with the second session's
    record still active, is what it was. *)
Lemma refresh_revoked_throws_and_writes_nothing_witness :
  (refresh service "jwt.1" None world_logged_out
     = (Thrown RefreshTokenRevokedException, world_logged_out)
   /\
   trace_of (refresh (traced service) "jwt.1" None) world_logged_out =
     [EvVerifyRefreshToken "jwt.1" (Returned alice_payload);
      EvFindByUserId "u1" (Returned (table world_logged_out));
      EvFindMatchedToken (table world_logged_out) "jwt.1"
        (Returned (Some (revoked_at 1700000000000 record_rt_2)))])
  /\
  table world_logged_out = [record_rt_5; revoked_at 1700000000000 record_rt_2].
Proof.
  split; [|reflexivity].
  apply (refresh_revoked_throws_and_writes_nothing service "jwt.1" None
           world_logged_out alice_payload world_logged_out
           (table world_logged_out) world_logged_out
           (revoked_at 1700000000000 record_rt_2) world_logged_out
           1700000000000);
    reflexivity.
Defined.

(** C4, as amended. When the record matched to the raw token is not revoked
    and its [expiresAt] is at or before the clock's reading (equality
    included), [refresh] calls [revoke] for that one record and then throws
    [RefreshTokenExpiredException]; it makes no other writing call. *)
Theorem refresh_expired_revokes_record_then_expired
    {W} (this : AuthService W) (rawRefreshToken : string)
    (meta : option RequestMetadata) (w : W)
    (payload : TokenPayload) (w1 : W)
    (tokens : list RefreshTokenRecord) (w2 : W)
    (matched : RefreshTokenRecord) (w3 w4 : W) :
  tokenRepo_verifyRefreshToken (tokenRepo this) rawRefreshToken w
    = (Returned payload, w1) ->
  tokenRepo_findByUserId (tokenRepo this) (sub payload) w1
    = (Returned tokens, w2) ->
  tokenRepo_findMatchedToken (tokenRepo this) tokens rawRefreshToken w2
    = (Returned (Some matched), w3) ->
  rec_revokedAt matched = None ->
  rec_expiresAt matched <= Date_now this w3 ->
  tokenRepo_revoke (tokenRepo this) (rec_id matched) w3 = (Returned tt, w4) ->
  refresh this rawRefreshToken meta w = (Thrown RefreshTokenExpiredException, w4)
  /\
  trace_of (refresh (traced this) rawRefreshToken meta) w =
    [EvVerifyRefreshToken rawRefreshToken (Returned payload);
     EvFindByUserId (sub payload) (Returned tokens);
     EvFindMatchedToken tokens rawRefreshToken (Returned (Some matched));
     EvRevoke (rec_id matched) (Returned tt)].
Proof.
  intros Hverify Hfind Hmatch Hactive Hexpired Hrevoke.
  apply Z.leb_le in Hexpired.
  split; replay; reflexivity.
Qed.

(** C4 on the reference world, at the boundary: the matched record expires
    at exactly the present instant. Its record ends revoked, the record of
    the other session stays active. *)
Lemma refresh_expired_revokes_record_then_expired_witness :
  (refresh service "jwt.1" None world_expiring_now
     = (Thrown RefreshTokenExpiredException,
        after (revoke "rt_2") world_expiring_now)
   /\
   trace_of (refresh (traced service) "jwt.1" None) world_expiring_now =
     [EvVerifyRefreshToken "jwt.1" (Returned alice_payload);
      EvFindByUserId "u1" (Returned (table world_expiring_now));
      EvFindMatchedToken (table world_expiring_now) "jwt.1"
        (Returned (Some (expiring_at 1700000000000 record_rt_2)));
      EvRevoke "rt_2" (Returned tt)])
  /\
  clock world_expiring_now = 1700000000000
  /\
  table (after (refresh service "jwt.1" None) world_expiring_now)
    = [expiring_at 1700000000000 record_rt_5;
       revoked_at 1700000000000 (expiring_at 1700000000000 record_rt_2)].
Proof.
  split; [|split; reflexivity].
  apply (refresh_expired_revokes_record_then_expired service "jwt.1" None
           world_expiring_now alice_payload world_expiring_now
           (table world_expiring_now) world_expiring_now
           (expiring_at 1700000000000 record_rt_2)
           world_expiring_now (after (revoke "rt_2") world_expiring_now));
    reflexivity.
Defined.

(** C4 as stated fails where the matched record is expired and also
    revoked: the revocation test comes first, so [refresh] throws
    [RefreshTokenRevokedException], not [RefreshTokenExpiredException], and
    makes no call to [revoke]. *)
Lemma refresh_expired_and_revoked_counterexample :
  let w := world_revoked_and_expired in
  let matched := revoked_at 1700000000000 (expiring_at 1700000000000 record_rt_2) in
  tokenRepo_verifyRefreshToken (tokenRepo service) "jwt.1" w
    = (Returned alice_payload, w) /\
  tokenRepo_findByUserId (tokenRepo service) (sub alice_payload) w
    = (Returned (table w), w) /\
  tokenRepo_findMatchedToken (tokenRepo service) (table w) "jwt.1" w
    = (Returned (Some matched), w) /\
  rec_expiresAt matched <= Date_now service w /\
  refresh service "jwt.1" None w = (Thrown RefreshTokenRevokedException, w) /\
  fst (refresh service "jwt.1" None w) <> Thrown RefreshTokenExpiredException /\
  trace_of (refresh (traced service) "jwt.1" None) w =
    [EvVerifyRefreshToken "jwt.1" (Returned alice_payload);
     EvFindByUserId "u1" (Returned (table w));
     EvFindMatchedToken (table w) "jwt.1" (Returned (Some matched))].
Proof.
  vm_compute. repeat split; discriminate.
Qed.

(** C10. The rotation does not need the subject to be in the user directory
    any more: when [users.findByEmail] resolves to null, the [UserInfo] the
    new tokens are signed for has no [displayName], and [refresh] goes on to
    sign, save and mark as for any other subject, and returns the new pair. *)
Theorem refresh_rotates_for_subject_without_profile
    {W} (this : AuthService W) (rawRefreshToken : string)
    (meta : option RequestMetadata) (w : W)
    (payload : TokenPayload) (w1 : W)
    (tokens : list RefreshTokenRecord) (w2 : W)
    (matched : RefreshTokenRecord) (w3 w4 : W)
    (access refreshed : string) (w5 w6 : W)
    (saved : RefreshTokenRecord) (w7 w8 : W) :
  let user := {| id := sub payload;
                 email := payload_email payload;
                 displayName := None |} in
  tokenRepo_verifyRefreshToken (tokenRepo this) rawRefreshToken w
    = (Returned payload, w1) ->
  tokenRepo_findByUserId (tokenRepo this) (sub payload) w1
    = (Returned tokens, w2) ->
  tokenRepo_findMatchedToken (tokenRepo this) tokens rawRefreshToken w2
    = (Returned (Some matched), w3) ->
  rec_revokedAt matched = None ->
  Date_now this w3 < rec_expiresAt matched ->
  users_findByEmail (users this) (payload_email payload) w3
    = (Returned None, w4) ->
  jwt_sign (jwt this)
    {| sub := sub payload; payload_email := payload_email payload;
       payload_displayName := None; typ := None |} None w4
    = (Returned access, w5) ->
  tokenRepo_createRefreshToken (tokenRepo this) user w5
    = (Returned refreshed, w6) ->
  tokenRepo_save (tokenRepo this) (sub payload) refreshed meta w6
    = (Returned saved, w7) ->
  tokenRepo_markAsReplaced (tokenRepo this) (rec_id matched) (rec_id saved) w7
    = (Returned tt, w8) ->
  refresh this rawRefreshToken meta w
    = (Returned {| access_token := access;
                   refresh_token := refreshed;
                   refresh_token_id := rec_id saved |}, w8).
Proof.
  intros user Hverify Hfind Hmatch Hactive Hfresh Hprofile Hsign Hcreate
    Hsave Hmark.
  apply Z.leb_gt in Hfresh. subst user.
  replay. reflexivity.
Qed.

(** C10 on the reference world: Alice's row has left the directory; her
    refresh token is rotated all the same, and neither of the new tokens
    carries a [displayName]. *)
Lemma refresh_rotates_for_subject_without_profile_witness :
  refresh service "jwt.1" None world_without_alice
    = (Returned {| access_token := "jwt.3";
                   refresh_token := "jwt.4";
                   refresh_token_id := rec_id record_rt_5 |},
       after (refresh service "jwt.1" None) world_without_alice)
  /\
  find (fun u => String.eqb (user_id u) "u1") (directory world_without_alice)
    = None
  /\
  fst (jwt_decode model_jwt "jwt.4"
         (after (refresh service "jwt.1" None) world_without_alice))
    = Returned (JsObject [("sub", JsString "u1");
                          ("email", JsString "alice@example.com");
                          ("typ", JsString "refresh");
                          ("iat", JsNumber 1700000000);
                          ("exp", JsNumber 1700604800)]).
Proof.
  split; [|split; reflexivity].
  pose (user := {| id := "u1"; email := "alice@example.com";
                   displayName := None |}).
  pose (w5 := after (TokenUtil.signAccessToken model_jwt user) world_without_alice).
  pose (w6 := after (createRefreshToken user) w5).
  pose (w7 := after (save "u1" "jwt.4" None) w6).
  apply (refresh_rotates_for_subject_without_profile service "jwt.1" None
           world_without_alice alice_payload world_without_alice
           (table world_without_alice) world_without_alice record_rt_2
           world_without_alice world_without_alice "jwt.3" "jwt.4" w5 w6
           record_rt_5 w7
           (after (refresh service "jwt.1" None) world_without_alice));
    reflexivity.
Defined.

(** ** Session Manager: [logout] *)

(** C7. Whatever the raw token, once [findAll(500)] and [findMatchedToken]
    have answered, [logout] resolves to [{ ok: true }]: with a match it
    calls [revoke] for the matched record and nothing else that writes;
    without a match it calls nothing that writes, and the world is the one
    the two look-ups left. The result is the same value in both cases. *)
Theorem logout_revokes_match_and_reports_ok
    {W} (this : AuthService W) (rawRefreshToken : string) (w : W)
    (tokens : list RefreshTokenRecord) (w1 : W)
    (found : option RefreshTokenRecord) (w2 : W) :
  tokenRepo_findAll (tokenRepo this) 500 w = (Returned tokens, w1) ->
  tokenRepo_findMatchedToken (tokenRepo this) tokens rawRefreshToken w1
    = (Returned found, w2) ->
  match found with
  | Some matched =>
      forall w3,
        tokenRepo_revoke (tokenRepo this) (rec_id matched) w2
          = (Returned tt, w3) ->
        logout this rawRefreshToken w = (Returned {| ok := true |}, w3) /\
        trace_of (logout (traced this) rawRefreshToken) w =
          [EvFindAll 500 (Returned tokens);
           EvFindMatchedToken tokens rawRefreshToken (Returned (Some matched));
           EvRevoke (rec_id matched) (Returned tt)]
  | None =>
      logout this rawRefreshToken w = (Returned {| ok := true |}, w2) /\
      trace_of (logout (traced this) rawRefreshToken) w =
        [EvFindAll 500 (Returned tokens);
         EvFindMatchedToken tokens rawRefreshToken (Returned None)]
  end.
Proof.
  intros Hall Hmatch.
  destruct found as [matched|].
  - intros w3 Hrevoke. split; replay; reflexivity.
  - split; replay; reflexivity.
Qed.

(** C7 on the reference world: a garbage token changes nothing (the spec's
    scenario C), Alice's token gets its record revoked, and both calls
    resolve to the same value. *)
Lemma logout_revokes_match_and_reports_ok_witness :
  (logout service "garbage" world1 = (Returned {| ok := true |}, world1) /\
   trace_of (logout (traced service) "garbage") world1 =
     [EvFindAll 500 (Returned (table world1));
      EvFindMatchedToken (table world1) "garbage" (Returned None)])
  /\
  (logout service "jwt.1" world1
     = (Returned {| ok := true |}, after (revoke "rt_2") world1) /\
   trace_of (logout (traced service) "jwt.1") world1 =
     [EvFindAll 500 (Returned (table world1));
      EvFindMatchedToken (table world1) "jwt.1" (Returned (Some record_rt_2));
      EvRevoke "rt_2" (Returned tt)])
  /\
  table (after (logout service "jwt.1") world1)
    = [revoked_at 1700000000000 record_rt_2].
Proof.
  split; [|split]; [| |reflexivity].
  - apply (logout_revokes_match_and_reports_ok service "garbage" world1
             (table world1) world1 None world1); reflexivity.
  - apply (logout_revokes_match_and_reports_ok service "jwt.1" world1
             (table world1) world1 (Some record_rt_2) world1);
      reflexivity.
Defined.

(** ** Session Manager: order of the writes in [refresh] *)

(** Splits on every collaborator outcome and every test of a method, so
    that each goal left is one path through it. *)
Ltac each_path :=
  repeat match goal with
    | |- context [match ?o with Some _ => _ | None => _ end] =>
        destruct o eqn:?; cbn
    | |- context [if ?b then _ else _] => destruct b eqn:?; cbn
    | _ => split_call
    end.

(** C2. In every run of [refresh], whatever the collaborators answer, a
    call to [markAsReplaced] is made only right after a call to [save] has
    returned, with the returned record's id as the new id, and nothing
    follows it: the old record is never marked before the new one is
    persisted. When [refresh] returns a pair, its trace ends with that
    [save] of the returned refresh token followed by the [markAsReplaced]
    of the record [findMatchedToken] had matched, the pair carries the
    saved record's id, and no earlier call wrote to the store. *)
Theorem refresh_saves_before_marking
    {W} (this : AuthService W) (rawRefreshToken : string)
    (meta : option RequestMetadata) (w : W) :
  saved_before_marked (trace_of (refresh (traced this) rawRefreshToken meta) w)
  /\
  (forall pair w',
      refresh this rawRefreshToken meta w = (Returned pair, w') ->
      exists front userId saved tokens matched,
        trace_of (refresh (traced this) rawRefreshToken meta) w
          = front ++ [EvSave userId (refresh_token pair) meta (Returned saved);
                      EvMarkAsReplaced (rec_id matched) (rec_id saved)
                        (Returned tt)]
        /\ refresh_token_id pair = rec_id saved
        /\ In (EvFindMatchedToken tokens rawRefreshToken (Returned (Some matched)))
              front
        /\ forallb (fun ev => negb (writes ev)) front = true).
Proof.
  split.
  - apply marks_follow_saves_sound.
    unfold_service. each_path; rewrite ?eqb_same; reflexivity.
  - intros pair w'. unfold_service.
    each_path; intros Hrun; try discriminate Hrun;
      injection Hrun as <- <-; cbn;
      match goal with
      | |- exists _ _ _ _ _, ?a :: ?b :: ?c :: ?d :: ?e :: ?f :: ?rest = _ /\ _ =>
          exists [a; b; c; d; e; f]
      end;
      match goal with u : unit |- _ => destruct u end;
      do 4 eexists;
      (split; [reflexivity|split; [reflexivity|split; [|reflexivity]]]);
      do 2 right; left; reflexivity.
Qed.

(** The trace of the rotation on the reference world. *)
Example refresh_trace_on_reference_world :
  trace_of (refresh (traced service) "jwt.1" None) world1 =
    [EvVerifyRefreshToken "jwt.1" (Returned alice_payload);
     EvFindByUserId "u1" (Returned [record_rt_2]);
     EvFindMatchedToken [record_rt_2] "jwt.1" (Returned (Some record_rt_2));
     EvFindByEmail "alice@example.com" (Returned (Some alice));
     EvJwtSign {| sub := "u1"; payload_email := "alice@example.com";
                  payload_displayName := Some "Alice"; typ := None |}
       None (Returned "jwt.3");
     EvCreateRefreshToken alice_info (Returned "jwt.4");
     EvSave "u1" "jwt.4" None (Returned record_rt_5);
     EvMarkAsReplaced "rt_2" "rt_5" (Returned tt)].
Proof. reflexivity. Qed.

(** When [save] throws, [refresh] stops there: [markAsReplaced] is not
    called, so the old record is not marked as replaced by a record that
    was never persisted. *)
Lemma refresh_save_failure_marks_nothing
    {W} (this : AuthService W) (rawRefreshToken : string)
    (meta : option RequestMetadata) (w : W) userId refreshed cause :
  In (EvSave userId refreshed meta (Thrown cause))
     (trace_of (refresh (traced this) rawRefreshToken meta) w) ->
  forallb (fun ev => match ev with EvMarkAsReplaced _ _ _ => false | _ => true end)
    (trace_of (refresh (traced this) rawRefreshToken meta) w) = true.
Proof.
  unfold_service.
  each_path; intros Hin; try reflexivity;
    cbn in Hin;
    repeat (destruct Hin as [Hin|Hin]; [discriminate Hin|]);
    destruct Hin.
Qed.

(** ** Session Manager: what [refresh] throws *)

(** X2. Whatever [refresh] throws is one of the three exceptions it knows or
    the one it normalises the others to: an [UnauthorizedException] never
    leaves it. *)
Lemma refresh_throws_four_kinds
    {W} (this : AuthService W) (rawRefreshToken : string)
    (meta : option RequestMetadata) (w w' : W) (e : exn) :
  refresh this rawRefreshToken meta w = (Thrown e, w') ->
  e = RefreshTokenReusedException \/ e = RefreshTokenRevokedException \/
  e = RefreshTokenExpiredException \/ e = FAILED_TO_REFRESH.
Proof.
  unfold refresh, try_catch.
  destruct (refresh_body this rawRefreshToken meta w) as [[pair|cause] w1].
  - discriminate.
  - destruct cause; cbn; unfold throw; intros H; injection H as <- _; auto.
Qed.

(** An exception of the three known classes thrown inside the [try] block
    leaves [refresh] unchanged; any other is replaced. *)
Lemma refresh_rethrows_known_normalises_others
    {W} (this : AuthService W) (rawRefreshToken : string)
    (meta : option RequestMetadata) (w w' : W) (cause : exn) :
  refresh_body this rawRefreshToken meta w = (Thrown cause, w') ->
  refresh this rawRefreshToken meta w
    = (Thrown (if is_known_refresh_exception cause then cause
               else FAILED_TO_REFRESH), w').
Proof.
  intros Hbody. unfold refresh, try_catch. rewrite Hbody.
  destruct (is_known_refresh_exception cause); reflexivity.
Qed.

(** A token [verifyRefreshToken] rejects makes [refresh] throw the
    normalised internal error, whatever the rejection was, unless it was of
    one of the three known classes. *)
Lemma refresh_rejected_token_is_normalised
    {W} (this : AuthService W) (rawRefreshToken : string)
    (meta : option RequestMetadata) (w w1 : W) (cause : exn) :
  tokenRepo_verifyRefreshToken (tokenRepo this) rawRefreshToken w
    = (Thrown cause, w1) ->
  is_known_refresh_exception cause = false ->
  refresh this rawRefreshToken meta w = (Thrown FAILED_TO_REFRESH, w1) /\
  trace_of (refresh (traced this) rawRefreshToken meta) w
    = [EvVerifyRefreshToken rawRefreshToken (Thrown cause)].
Proof.
  intros Hverify Hunknown. split; replay; reflexivity.
Qed.

(** C3, at the input where the code departs from it. A raw token that does
    not verify makes the repository throw the [UnauthorizedException] of
    [verifyRefreshToken]; [refresh]'s catch block re-throws only the three
    refresh-token exceptions, so the caller gets the
    [InternalServerErrorException] meant for infrastructure failures: the
    invalid-token error does not propagate unchanged. *)
Theorem refresh_invalid_token_becomes_internal_error :
  tokenRepo_verifyRefreshToken (tokenRepo service) "garbage" world1
    = (Thrown (UnauthorizedException "Invalid or expired refresh token"), world1)
  /\
  refresh service "garbage" None world1
    = (Thrown (InternalServerErrorException "Failed to refresh tokens"), world1)
  /\
  trace_of (refresh (traced service) "garbage" None) world1
    = [EvVerifyRefreshToken "garbage"
         (Thrown (UnauthorizedException "Invalid or expired refresh token"))].
Proof. split; [|split]; reflexivity. Qed.

(** On the reference world, a store that is down makes [refresh] throw the
    same normalised error, and the three known exceptions reach the caller
    as they were thrown. *)
Example refresh_errors_on_reference_world :
  fst (refresh service "jwt.1" None (with_store_down true world1))
    = Thrown FAILED_TO_REFRESH /\
  fst (refresh service "jwt.1" None world2)
    = Thrown RefreshTokenReusedException /\
  fst (refresh service "jwt.1" None world_logged_out)
    = Thrown RefreshTokenRevokedException /\
  fst (refresh service "jwt.1" None world_expiring_now)
    = Thrown RefreshTokenExpiredException.
Proof. split; [|split; [|split]]; reflexivity. Qed.

(** ** The reference Token Store *)

(** A query either is rejected, leaving the world, or runs. *)
Lemma query_up {A} (run : World -> A * World) (w : World) :
  store_down w = false ->
  query run w = (Returned (fst (run w)), snd (run w)).
Proof.
  intros Hup. unfold query. rewrite Hup. destruct (run w); reflexivity.
Qed.

Lemma query_down {A} (run : World -> A * World) (w : World) :
  store_down w = true -> query run w = (Thrown DB_ERROR, w).
Proof. intros Hdown. unfold query. rewrite Hdown. reflexivity. Qed.

(** [findMatchedToken] only reads, and its answer does not depend on the
    world. *)
Lemma findMatchedToken_reads_only tokens raw (w : World) :
  snd (findMatchedToken tokens raw w) = w.
Proof.
  induction tokens as [|t rest IH]; cbn; [reflexivity|].
  destruct (rec_replacedById t); [exact IH|].
  unfold bind, BcryptUtil.compareToken, try_catch; cbn.
  destruct (String.eqb (rec_token t) ""); cbn; [reflexivity|].
  match goal with |- context [if ?b then _ else _] => destruct b end;
    [reflexivity|exact IH].
Qed.

Lemma findMatchedToken_any_world tokens raw (w w' : World) :
  fst (findMatchedToken tokens raw w) = fst (findMatchedToken tokens raw w').
Proof.
  induction tokens as [|t rest IH]; cbn; [reflexivity|].
  destruct (rec_replacedById t); [exact IH|].
  unfold bind, BcryptUtil.compareToken, try_catch; cbn.
  destruct (String.eqb (rec_token t) ""); cbn; [reflexivity|].
  match goal with |- context [if ?b then _ else _] => destruct b end;
    [reflexivity|exact IH].
Qed.

(** A change of the rows that keeps the stored token and the replaced-by
    link changes the match accordingly. *)
Lemma findMatchedToken_map (g : RefreshTokenRecord -> RefreshTokenRecord)
    tokens raw (w : World) :
  (forall r, rec_token (g r) = rec_token r) ->
  (forall r, rec_replacedById (g r) = rec_replacedById r) ->
  fst (findMatchedToken (map g tokens) raw w) =
    match fst (findMatchedToken tokens raw w) with
    | Returned found => Returned (option_map g found)
    | Thrown e => Thrown e
    end.
Proof.
  intros Htoken Hreplaced.
  induction tokens as [|t rest IH]; cbn; [reflexivity|].
  rewrite Hreplaced.
  destruct (rec_replacedById t); [exact IH|].
  unfold bind, BcryptUtil.compareToken, try_catch; cbn.
  rewrite Htoken.
  destruct (String.eqb (rec_token t) ""); cbn; [reflexivity|].
  match goal with |- context [if ?b then _ else _] => destruct b end;
    [reflexivity|exact IH].
Qed.

(** A match is one of the candidates. *)
Lemma findMatchedToken_In tokens raw (w w' : World) matched :
  findMatchedToken tokens raw w = (Returned (Some matched), w') ->
  In matched tokens.
Proof.
  induction tokens as [|t rest IH]; cbn; [discriminate|].
  destruct (rec_replacedById t); [intros H; right; exact (IH H)|].
  unfold bind, BcryptUtil.compareToken, try_catch; cbn.
  destruct (String.eqb (rec_token t) ""); cbn; [discriminate|].
  match goal with |- context [if ?b then _ else _] => destruct b end.
  - intros H. injection H as <- _. left; reflexivity.
  - intros H. right. exact (IH H).
Qed.

(** Revoking a revoked record leaves it as it is, whenever it is done. *)
Lemma revoked_at_again (now now' : Z) (r : RefreshTokenRecord) :
  revoked_at now' (revoked_at now r) = revoked_at now r.
Proof. unfold revoked_at. destruct (rec_revokedAt r) eqn:H; cbn; rewrite ?H; reflexivity. Qed.

Lemma update_where_again p (f f' : RefreshTokenRecord -> RefreshTokenRecord) t :
  (forall r, p (f r) = p r) ->
  (forall r, f' (f r) = f r) ->
  update_where p f' (update_where p f t) = update_where p f t.
Proof.
  intros Hp Hf. unfold update_where. rewrite map_map.
  apply map_ext. intros r.
  destruct (p r) eqn:Hpr.
  - rewrite Hp, Hpr. apply Hf.
  - rewrite Hpr. reflexivity.
Qed.

(** The spec's idempotence of [revoke]: revoking a record a second time,
    at once or any time later, leaves the state as the first call left it. *)
Lemma revoke_twice_same_world (recordId : string) (ms : Z) (w : World) :
  after (revoke recordId) (tick ms (after (revoke recordId) w))
    = tick ms (after (revoke recordId) w).
Proof.
  unfold after, revoke, query.
  destruct (store_down w) eqn:Hdown; cbn; rewrite Hdown; cbn; [reflexivity|].
  unfold with_table, tick; cbn. f_equal.
  apply update_where_again.
  - intros r. unfold revoked_at. destruct (rec_revokedAt r); reflexivity.
  - intros r. apply revoked_at_again.
Qed.

(** After [revokeAllForUser], every record of the user is revoked and the
    records of other users are as they were. *)
Lemma revokeAllForUser_revokes_all (userId : string) (w : World) :
  store_down w = false ->
  let w' := after (revokeAllForUser userId) w in
  (forall r, In r (table w') -> rec_userId r = userId ->
             rec_revokedAt r <> None) /\
  filter (fun r => negb (String.eqb (rec_userId r) userId)) (table w')
    = filter (fun r => negb (String.eqb (rec_userId r) userId)) (table w).
Proof.
  intros Hup. unfold after, revokeAllForUser, query. rewrite Hup. cbn.
  split.
  - intros r Hin Huser. unfold update_where in Hin.
    apply in_map_iff in Hin. destruct Hin as (r0 & <- & _).
    destruct (String.eqb (rec_userId r0) userId) eqn:Hmine.
    + unfold revoked_at. destruct (rec_revokedAt r0) eqn:Hrev; cbn; congruence.
    + assert (Hsame : rec_userId r0 = userId) by exact Huser.
      apply String.eqb_neq in Hmine. contradiction.
  - induction (table w) as [|r t IH]; cbn; [reflexivity|].
    destruct (String.eqb (rec_userId r) userId) eqn:Hmine; cbn.
    + assert (Hkeep : rec_userId (revoked_at (clock w) r) = rec_userId r)
        by (unfold revoked_at; destruct (rec_revokedAt r); reflexivity).
      rewrite Hkeep, Hmine. cbn. exact IH.
    + rewrite Hmine. cbn. f_equal. exact IH.
Qed.

(** What [logout] does to the reference world. *)
Lemma logout_on_reference_world (raw : string) (w : World) :
  after (logout service raw) w =
    if store_down w then w
    else
      match fst (findMatchedToken (firstn (Z.to_nat 500) (table w)) raw w) with
      | Returned (Some matched) =>
          with_table
            (update_where (fun r => String.eqb (rec_id r) (rec_id matched))
               (revoked_at (clock w)) (table w)) w
      | _ => w
      end.
Proof.
  unfold after, logout, try_catch, bind, ret, throw.
  change (tokenRepo_findAll (tokenRepo service)) with findAll.
  change (tokenRepo_findMatchedToken (tokenRepo service)) with findMatchedToken.
  change (tokenRepo_revoke (tokenRepo service)) with revoke.
  unfold findAll, revoke, query.
  destruct (store_down w) eqn:Hdown; [reflexivity|].
  set (tokens := firstn (Z.to_nat 500) (table w)).
  pose proof (findMatchedToken_reads_only tokens raw w) as Hreads.
  destruct (findMatchedToken tokens raw w) as [[[matched|]|e] w0];
    cbn in Hreads; subst w0; cbn [fst snd]; rewrite ?Hdown; reflexivity.
Qed.

(** [logout] is idempotent on the reference store: a second [logout] with
    the same raw token, at once or any time later, leaves the table as the
    first left it. *)
Lemma logout_twice_same_table (raw : string) (ms : Z) (w : World) :
  table (after (logout service raw) (tick ms (after (logout service raw) w)))
    = table (after (logout service raw) w).
Proof.
  rewrite (logout_on_reference_world raw (tick ms _)).
  rewrite (logout_on_reference_world raw w).
  destruct (store_down w) eqn:Hdown; cbn [tick store_down]; rewrite ?Hdown;
    [reflexivity|].
  set (tokens := firstn (Z.to_nat 500) (table w)).
  destruct (fst (findMatchedToken tokens raw w)) as [[matched|]|e] eqn:Hfirst;
    cbn [with_table store_down table clock tick]; rewrite ?Hdown.
  - set (g := fun r => if String.eqb (rec_id r) (rec_id matched)
                       then revoked_at (clock w) r else r).
    change (update_where (fun r => String.eqb (rec_id r) (rec_id matched))
              (revoked_at (clock w)) (table w)) with (map g (table w)).
    rewrite firstn_map. fold tokens.
    assert (Hsecond :
      fst (findMatchedToken (map g tokens) raw
             (tick ms (with_table (map g (table w)) w)))
        = Returned (Some (g matched))).
    { rewrite findMatchedToken_map.
      - rewrite (findMatchedToken_any_world tokens raw _ w), Hfirst. reflexivity.
      - intros r. unfold g, revoked_at.
        destruct (String.eqb (rec_id r) (rec_id matched)), (rec_revokedAt r);
          reflexivity.
      - intros r. unfold g, revoked_at.
        destruct (String.eqb (rec_id r) (rec_id matched)), (rec_revokedAt r);
          reflexivity. }
    unfold tick, with_table in Hsecond |- *. cbn in Hsecond |- *.
    rewrite Hsecond. cbn.
    assert (Hid : rec_id (g matched) = rec_id matched).
    { unfold g, revoked_at.
      destruct (String.eqb (rec_id matched) (rec_id matched)),
        (rec_revokedAt matched); reflexivity. }
    rewrite Hid.
    change (map g (table w))
      with (update_where (fun r => String.eqb (rec_id r) (rec_id matched))
              (revoked_at (clock w)) (table w)).
    apply update_where_again.
    + intros r. unfold revoked_at. destruct (rec_revokedAt r); reflexivity.
    + intros r. apply revoked_at_again.
  - rewrite (findMatchedToken_any_world tokens raw _ w), Hfirst. reflexivity.
  - rewrite (findMatchedToken_any_world tokens raw _ w), Hfirst. reflexivity.
Qed.

(** The reference library signs whatever has a well-formed lifetime: the
    token is the next serial string, remembered with its expiration. *)
Lemma model_sign_mints payload options seconds (w : World) :
  seconds_of_duration
    (match options with Some o => expiresIn o | None => ACCESS_EXPIRES_IN end)
    = Some seconds ->
  let token := ("jwt." ++ decimal (serial w))%string in
  let signed :=
    {| st_payload := payload;
       st_secret := match options with
                    | Some o => secret o
                    | None => ACCESS_SECRET
                    end;
       st_iat := clock w / 1000;
       st_exp := clock w / 1000 + seconds |} in
  model_sign payload options w =
    (Returned token,
     {| clock := clock w; directory := directory w; table := table w;
        minted := (token, signed) :: minted w; serial := S (serial w);
        store_down := store_down w |}).
Proof. intros Httl. unfold model_sign. rewrite Httl. reflexivity. Qed.

(** The decoded form of a token the library signed carries its [exp]. *)
Lemma model_decode_exp token signed (w : World) :
  lookup_token token (minted w) = Some signed ->
  exists decoded,
    model_decode token w = (Returned decoded, w) /\
    TokenUtil.optional_member decoded "exp" = JsNumber (st_exp signed).
Proof.
  intros Hminted. unfold model_decode. rewrite Hminted.
  eexists. split; [reflexivity|].
  unfold optional_string.
  destruct (payload_displayName (st_payload signed)), (typ (st_payload signed));
    reflexivity.
Qed.

(** Every record [issueTokens] creates on the reference store expires, in
    the store, at the instant the signed refresh token's own [exp] names:
    the store expiry is not before the token's. *)
Lemma issued_record_expires_with_its_token
    (user : UserInfo) (meta : option RequestMetadata) (w : World) :
  store_down w = false ->
  0 <= clock w ->
  exists pair saved signed,
    issueTokens service user meta w
      = (Returned pair, after (issueTokens service user meta) w) /\
    table (after (issueTokens service user meta) w) = saved :: table w /\
    rec_id saved = refresh_token_id pair /\
    lookup_token (refresh_token pair)
      (minted (after (issueTokens service user meta) w)) = Some signed /\
    rec_expiresAt saved = 1000 * st_exp signed.
Proof.
  intros Hup Hclock.
  assert (Hpos : 0 <= clock w / 1000) by (apply Z.div_pos; lia).
  unfold after, issueTokens, try_catch, bind, ret.
  change (tokenRepo_createRefreshToken (tokenRepo service)) with createRefreshToken.
  change (tokenRepo_save (tokenRepo service)) with save.
  change (jwt service) with model_jwt.
  unfold TokenUtil.signAccessToken, createRefreshToken, save,
    TokenUtil.signRefreshToken, TokenUtil.decodeToken, BcryptUtil.hashToken,
    try_catch, bind, query.
  change (jwt_sign model_jwt) with model_sign.
  change (jwt_decode model_jwt) with model_decode.
  rewrite (model_sign_mints _ None 900 w eq_refl). cbv zeta.
  match goal with
  | |- context [model_sign ?p (Some ?o) ?w1] =>
      rewrite (model_sign_mints p (Some o) 604800 w1 eq_refl)
  end.
  cbv zeta. cbn [clock serial minted store_down table directory].
  match goal with
  | |- context [model_decode ?token ?w2] =>
      destruct (model_decode_exp token
                  {| st_payload :=
                       {| sub := id user; payload_email := email user;
                          payload_displayName := displayName user;
                          typ := Some "refresh" |};
                     st_secret := REFRESH_SECRET;
                     st_iat := clock w / 1000;
                     st_exp := clock w / 1000 + 604800 |} w2)
        as (decoded & Hdecode & Hexp);
      [cbn [minted lookup_token]; rewrite eqb_same; reflexivity|];
      rewrite Hdecode
  end.
  cbn [bcrypt_hash model_bcrypt clock serial minted store_down table directory
       fst snd].
  rewrite Hup.
  do 3 eexists. split; [reflexivity|].
  cbn [fst snd table rec_id refresh_token_id refresh_token minted
       lookup_token rec_expiresAt].
  split; [reflexivity|]. split; [reflexivity|].
  rewrite eqb_same. split; [reflexivity|].
  f_equal.
  unfold TokenUtil.extractTokenExpiration. rewrite Hexp.
  cbn [st_exp TokenUtil.truthy TokenUtil.is_number].
  destruct (Z.eqb_spec (clock w / 1000 + 604800) 0); [lia|reflexivity].
Qed.



(** The wrapper only observes [logout] too. *)
Lemma traced_logout_erasure {W} (this : AuthService W) raw w log :
  logout (traced this) raw (w, log) =
    (fst (logout this raw w),
     (snd (logout this raw w), log ++ trace_of (logout (traced this) raw) w)).
Proof.
  unfold_service. each_path; rewrite <- ?app_assoc; reflexivity.
Qed.

(** Whatever [logout] throws is the one internal error. *)
Lemma logout_throws_one_kind
    {W} (this : AuthService W) (raw : string) (w w' : W) (e : exn) :
  logout this raw w = (Thrown e, w') ->
  e = InternalServerErrorException "Failed to logout".
Proof.
  unfold_service. each_path; intros H; try discriminate H;
    injection H as <- _; reflexivity.
Qed.

(** [verifyRefreshToken] only reads the reference world. *)
Lemma verifyRefreshToken_reads_only (raw : string) (w : World) :
  snd (verifyRefreshToken raw w) = w.
Proof.
  unfold verifyRefreshToken, TokenUtil.verifyRefreshToken, try_catch, throw.
  change (jwt_verifyAsync model_jwt) with model_verifyAsync.
  unfold model_verifyAsync.
  destruct (lookup_token raw (minted w)) as [signed|]; [|reflexivity].
  destruct (negb (String.eqb (st_secret signed) REFRESH_SECRET)); [reflexivity|].
  destruct (st_exp signed <=? clock w / 1000); reflexivity.
Qed.

(** The reuse branch on the state of the reference store: a verified token
    that matches none of its subject's records leaves every record of the
    subject revoked and the records of the other users as they were. *)
Lemma refresh_reuse_on_reference_store
    (raw : string) (meta : option RequestMetadata) (w : World)
    (payload : TokenPayload) :
  store_down w = false ->
  fst (verifyRefreshToken raw w) = Returned payload ->
  fst (findMatchedToken
         (filter (fun r => String.eqb (rec_userId r) (sub payload)) (table w))
         raw w) = Returned None ->
  let w' := after (refresh service raw meta) w in
  fst (refresh service raw meta w) = Thrown RefreshTokenReusedException /\
  (forall r, In r (table w') -> rec_userId r = sub payload ->
             rec_revokedAt r <> None) /\
  filter (fun r => negb (String.eqb (rec_userId r) (sub payload))) (table w')
    = filter (fun r => negb (String.eqb (rec_userId r) (sub payload))) (table w).
Proof.
  intros Hup Hverify Hmatch.
  assert (Hrun : refresh service raw meta w
                 = (Thrown RefreshTokenReusedException,
                    after (revokeAllForUser (sub payload)) w)).
  { unfold refresh, refresh_body, try_catch, bind, throw, after.
    change (tokenRepo_verifyRefreshToken (tokenRepo service))
      with verifyRefreshToken.
    change (tokenRepo_findByUserId (tokenRepo service)) with findByUserId.
    change (tokenRepo_findMatchedToken (tokenRepo service)) with findMatchedToken.
    change (tokenRepo_revokeAllForUser (tokenRepo service)) with revokeAllForUser.
    pose proof (verifyRefreshToken_reads_only raw w) as Hsame.
    destruct (verifyRefreshToken raw w) as [verified w0].
    cbn in Hverify, Hsame. subst verified w0.
    unfold findByUserId. rewrite (query_up _ w Hup). cbn [fst snd].
    pose proof (findMatchedToken_reads_only
                  (filter (fun r => String.eqb (rec_userId r) (sub payload))
                     (table w)) raw w) as Hreads.
    destruct (findMatchedToken _ raw w) as [found w0].
    cbn in Hmatch, Hreads. subst found w0.
    unfold revokeAllForUser. rewrite (query_up _ w Hup). reflexivity. }
  cbv zeta. unfold after at 1 2. rewrite Hrun. cbn [fst snd].
  split; [reflexivity|].
  exact (revokeAllForUser_revokes_all (sub payload) w Hup).
Qed.

(** ** The spec's scenarios on the reference world *)

(** Scenario A: a refresh with the token just issued succeeds, with a
    different refresh token and a new record id. *)
Example scenario_A :
  fst (issueTokens service alice_info None world0)
    = Returned {| access_token := "jwt.0"; refresh_token := "jwt.1";
                  refresh_token_id := "rt_2" |} /\
  fst (refresh service "jwt.1" None world1)
    = Returned {| access_token := "jwt.3"; refresh_token := "jwt.4";
                  refresh_token_id := "rt_5" |} /\
  table world2 = [record_rt_5; replaced_by "rt_5" record_rt_2].
Proof. split; [|split]; reflexivity. Qed.

(** Scenario B: after the rotation of A into B, presenting A again throws
    the reuse error and revokes every record of the user; B then fails too,
    its record being revoked. *)
Example scenario_B :
  let w3 := after (refresh service "jwt.1" None) world2 in
  fst (refresh service "jwt.1" None world2) = Thrown RefreshTokenReusedException /\
  table w3 = [revoked_at 1700000000000 record_rt_5;
              revoked_at 1700000000000 (replaced_by "rt_5" record_rt_2)] /\
  refresh service "jwt.4" None w3 = (Thrown RefreshTokenRevokedException, w3).
Proof. cbv zeta. split; [|split]; reflexivity. Qed.

(** * Further properties of the service and of its boundary *)

Import Boundary.

(** ** Session Manager: [issueTokens] *)

(** X1. [issueTokens] signs the access token, creates the refresh token and
    saves it, in this order, and stops at the first of the three that
    throws: nothing is saved unless both tokens exist, the token saved is
    the one created, under the user's id and with the caller's metadata.
    It resolves, to these two tokens and the id of the saved record, only
    when all three calls returned; every failure, a signing failure
    included, surfaces as the one [InternalServerErrorException]. *)
Theorem issueTokens_signs_creates_saves
    {W} (this : AuthService W) (user : UserInfo)
    (meta : option RequestMetadata) (w : W) :
  let payload := {| sub := id user; payload_email := email user;
                    payload_displayName := displayName user; typ := None |} in
  let run := fst (issueTokens this user meta w) in
  let calls := trace_of (issueTokens (traced this) user meta) w in
  (exists cause,
      calls = [EvJwtSign payload None (Thrown cause)] /\
      run = Thrown FAILED_TO_ISSUE)
  \/
  (exists access cause,
      calls = [EvJwtSign payload None (Returned access);
               EvCreateRefreshToken user (Thrown cause)] /\
      run = Thrown FAILED_TO_ISSUE)
  \/
  (exists access refreshed cause,
      calls = [EvJwtSign payload None (Returned access);
               EvCreateRefreshToken user (Returned refreshed);
               EvSave (id user) refreshed meta (Thrown cause)] /\
      run = Thrown FAILED_TO_ISSUE)
  \/
  (exists access refreshed saved,
      calls = [EvJwtSign payload None (Returned access);
               EvCreateRefreshToken user (Returned refreshed);
               EvSave (id user) refreshed meta (Returned saved)] /\
      run = Returned {| access_token := access;
                        refresh_token := refreshed;
                        refresh_token_id := rec_id saved |}).
Proof.
  cbv zeta. unfold_service. each_path.
  - do 3 right. eauto.
  - do 2 right. left. eauto.
  - right. left. eauto.
  - left. eauto.
Qed.

(** ** Session Manager: the writes of [refresh] and [logout] *)

(** X3. In one run, [refresh] writes to the store in exactly one of five
    ways: not at all; one [revokeAllForUser]; one [revoke]; one [save] that
    threw; or one [save] that returned followed by the [markAsReplaced]
    with the saved record's id.  So it never revokes and rotates in the
    same run, and it returns a pair only in the last way. *)
Theorem refresh_writes_in_one_of_five_ways
    {W} (this : AuthService W) (rawRefreshToken : string)
    (meta : option RequestMetadata) (w : W) :
  let run := fst (refresh this rawRefreshToken meta w) in
  let written :=
    filter writes (trace_of (refresh (traced this) rawRefreshToken meta) w) in
  (written = [] /\ exists e, run = Thrown e)
  \/
  (exists userId res,
      written = [EvRevokeAllForUser userId res] /\ exists e, run = Thrown e)
  \/
  (exists recordId res,
      written = [EvRevoke recordId res] /\ exists e, run = Thrown e)
  \/
  (exists userId refreshed cause,
      written = [EvSave userId refreshed meta (Thrown cause)] /\
      exists e, run = Thrown e)
  \/
  (exists userId refreshed saved oldId res,
      written = [EvSave userId refreshed meta (Returned saved);
                 EvMarkAsReplaced oldId (rec_id saved) res] /\
      match res with
      | Returned _ =>
          exists access,
            run = Returned {| access_token := access;
                              refresh_token := refreshed;
                              refresh_token_id := rec_id saved |}
      | Thrown _ => exists e, run = Thrown e
      end).
Proof.
  cbv zeta. unfold_service. each_path.
  all: try (left; split; [reflexivity|eauto]; fail).
  all: try (right; left; do 2 eexists; split; [reflexivity|eauto]; fail).
  all: try (do 2 right; left; do 2 eexists; split; [reflexivity|eauto]; fail).
  all: try (do 3 right; left; do 3 eexists; split; [reflexivity|eauto]; fail).
  all: do 4 right; do 5 eexists; (split; [reflexivity|]); cbn; eauto.
Qed.

(** X6. [logout] resolves to [{ ok: true }] or throws the one
    [InternalServerErrorException]; in one run it writes to the store at
    most once, and then by a single [revoke]: it never saves, marks or
    revokes in bulk. *)
Theorem logout_ok_or_internal_error_one_revoke
    {W} (this : AuthService W) (rawRefreshToken : string) (w : W) :
  let run := fst (logout this rawRefreshToken w) in
  let written :=
    filter writes (trace_of (logout (traced this) rawRefreshToken) w) in
  (run = Returned {| ok := true |} \/ run = Thrown FAILED_TO_LOGOUT)
  /\
  (written = [] \/ exists recordId res, written = [EvRevoke recordId res]).
Proof.
  cbv zeta. unfold_service. each_path; split; eauto.
Qed.

(** ** Session Manager: the calls of [validateUser] *)

(** X7. [validateUser] looks the e-mail up once and calls [bcrypt.compare]
    only when a user was found, once, with the given password and that
    user's stored hash; for an unknown e-mail no comparison is made.  It
    calls nothing else, so it writes nothing. *)
Theorem validateUser_compares_only_for_known_email
    {W} (this : AuthService W) (email password : string) (w : W) :
  let calls := trace_of (validateUser (traced this) email password) w in
  (exists res,
      calls = [EvFindByEmail email res] /\
      forall user, res <> Returned (Some user))
  \/
  (exists user res,
      calls = [EvFindByEmail email (Returned (Some user));
               EvBcryptCompare password (user_passwordHash user) res]).
Proof.
  cbv zeta. unfold_service. each_path.
  all: try (right; eauto; fail).
  all: left; eexists; (split; [reflexivity|]); intros user; discriminate.
Qed.

(** ** Session Manager: more of [refresh] *)

(** X2 on the reference world: the token that does not verify. *)
Lemma refresh_throws_four_kinds_witness :
  refresh service "garbage" None world1 = (Thrown FAILED_TO_REFRESH, world1) /\
  (FAILED_TO_REFRESH = RefreshTokenReusedException \/
   FAILED_TO_REFRESH = RefreshTokenRevokedException \/
   FAILED_TO_REFRESH = RefreshTokenExpiredException \/
   FAILED_TO_REFRESH = FAILED_TO_REFRESH).
Proof.
  split; [reflexivity|].
  apply (refresh_throws_four_kinds service "garbage" None world1 world1).
  reflexivity.
Defined.

(** X4. A rotation signs the new tokens for the subject id and the e-mail
    of the verified payload and for the display name the user directory has
    now: the display name inside the presented token is not used, and of
    the directory's row nothing but the display name is. *)
Theorem refresh_takes_displayName_from_directory
    {W} (this : AuthService W) (rawRefreshToken : string)
    (meta : option RequestMetadata) (w : W)
    (payload : TokenPayload) (w1 : W)
    (tokens : list RefreshTokenRecord) (w2 : W)
    (matched : RefreshTokenRecord) (w3 : W)
    (userData : option User) (w4 : W)
    (access refreshed : string) (w5 w6 : W)
    (saved : RefreshTokenRecord) (w7 w8 : W) :
  let current := match userData with
                 | Some row => user_displayName row
                 | None => None
                 end in
  let user := {| id := sub payload; email := payload_email payload;
                 displayName := current |} in
  let signed := {| sub := sub payload; payload_email := payload_email payload;
                   payload_displayName := current; typ := None |} in
  tokenRepo_verifyRefreshToken (tokenRepo this) rawRefreshToken w
    = (Returned payload, w1) ->
  tokenRepo_findByUserId (tokenRepo this) (sub payload) w1
    = (Returned tokens, w2) ->
  tokenRepo_findMatchedToken (tokenRepo this) tokens rawRefreshToken w2
    = (Returned (Some matched), w3) ->
  rec_revokedAt matched = None ->
  Date_now this w3 < rec_expiresAt matched ->
  users_findByEmail (users this) (payload_email payload) w3
    = (Returned userData, w4) ->
  jwt_sign (jwt this) signed None w4 = (Returned access, w5) ->
  tokenRepo_createRefreshToken (tokenRepo this) user w5
    = (Returned refreshed, w6) ->
  tokenRepo_save (tokenRepo this) (sub payload) refreshed meta w6
    = (Returned saved, w7) ->
  tokenRepo_markAsReplaced (tokenRepo this) (rec_id matched) (rec_id saved) w7
    = (Returned tt, w8) ->
  refresh this rawRefreshToken meta w
    = (Returned {| access_token := access;
                   refresh_token := refreshed;
                   refresh_token_id := rec_id saved |}, w8)
  /\
  trace_of (refresh (traced this) rawRefreshToken meta) w =
    [EvVerifyRefreshToken rawRefreshToken (Returned payload);
     EvFindByUserId (sub payload) (Returned tokens);
     EvFindMatchedToken tokens rawRefreshToken (Returned (Some matched));
     EvFindByEmail (payload_email payload) (Returned userData);
     EvJwtSign signed None (Returned access);
     EvCreateRefreshToken user (Returned refreshed);
     EvSave (sub payload) refreshed meta (Returned saved);
     EvMarkAsReplaced (rec_id matched) (rec_id saved) (Returned tt)].
Proof.
  intros current user signed Hverify Hfind Hmatch Hactive Hfresh Hprofile
    Hsign Hcreate Hsave Hmark.
  apply Z.leb_gt in Hfresh. subst current user signed.
  destruct userData as [row|]; split; replay; reflexivity.
Qed.

(** X4 on the reference world: Alice's token says "Alice", the directory
    now says "Alice B."; the refresh token minted by the rotation carries
    the directory's name. *)
Lemma refresh_takes_displayName_from_directory_witness :
  (refresh service "jwt.1" None world_renamed
     = (Returned {| access_token := "jwt.3";
                    refresh_token := "jwt.4";
                    refresh_token_id := rec_id record_rt_5 |},
        after (refresh service "jwt.1" None) world_renamed)
   /\
   trace_of (refresh (traced service) "jwt.1" None) world_renamed =
     [EvVerifyRefreshToken "jwt.1" (Returned alice_payload);
      EvFindByUserId "u1" (Returned [record_rt_2]);
      EvFindMatchedToken [record_rt_2] "jwt.1" (Returned (Some record_rt_2));
      EvFindByEmail "alice@example.com" (Returned (Some alice_renamed));
      EvJwtSign {| sub := "u1"; payload_email := "alice@example.com";
                   payload_displayName := Some "Alice B."; typ := None |}
        None (Returned "jwt.3");
      EvCreateRefreshToken
        {| id := "u1"; email := "alice@example.com";
           displayName := Some "Alice B." |} (Returned "jwt.4");
      EvSave "u1" "jwt.4" None (Returned record_rt_5);
      EvMarkAsReplaced "rt_2" "rt_5" (Returned tt)])
  /\
  option_map (fun signed => payload_displayName (st_payload signed))
    (lookup_token "jwt.4"
       (minted (after (refresh service "jwt.1" None) world_renamed)))
    = Some (Some "Alice B.").
Proof.
  split; [|reflexivity].
  pose (user := {| id := "u1"; email := "alice@example.com";
                   displayName := Some "Alice B." |}).
  pose (w5 := after (TokenUtil.signAccessToken model_jwt user) world_renamed).
  pose (w6 := after (createRefreshToken user) w5).
  pose (w7 := after (save "u1" "jwt.4" None) w6).
  apply (refresh_takes_displayName_from_directory service "jwt.1" None
           world_renamed alice_payload world_renamed [record_rt_2]
           world_renamed record_rt_2 world_renamed (Some alice_renamed)
           world_renamed "jwt.3" "jwt.4" w5 w6 record_rt_5 w7
           (after (refresh service "jwt.1" None) world_renamed));
    reflexivity.
Defined.

(** X5. When the revocation that a security rejection calls for itself
    fails, the rejection is lost: with no match and a [revokeAllForUser]
    that throws, and with an expired match and a [revoke] that throws,
    [refresh] throws the normalised internal error, not
    [RefreshTokenReusedException] or [RefreshTokenExpiredException]. *)
Theorem refresh_failed_revocation_hides_rejection
    {W} (this : AuthService W) (rawRefreshToken : string)
    (meta : option RequestMetadata) (w : W)
    (payload : TokenPayload) (w1 : W)
    (tokens : list RefreshTokenRecord) (w2 : W)
    (found : option RefreshTokenRecord) (w3 : W) (cause : exn) (w4 : W) :
  tokenRepo_verifyRefreshToken (tokenRepo this) rawRefreshToken w
    = (Returned payload, w1) ->
  tokenRepo_findByUserId (tokenRepo this) (sub payload) w1
    = (Returned tokens, w2) ->
  tokenRepo_findMatchedToken (tokenRepo this) tokens rawRefreshToken w2
    = (Returned found, w3) ->
  is_known_refresh_exception cause = false ->
  match found with
  | None =>
      tokenRepo_revokeAllForUser (tokenRepo this) (sub payload) w3
        = (Thrown cause, w4)
  | Some matched =>
      rec_revokedAt matched = None /\
      rec_expiresAt matched <= Date_now this w3 /\
      tokenRepo_revoke (tokenRepo this) (rec_id matched) w3 = (Thrown cause, w4)
  end ->
  refresh this rawRefreshToken meta w = (Thrown FAILED_TO_REFRESH, w4).
Proof.
  intros Hverify Hfind Hmatch Hunknown Hwrite.
  destruct found as [matched|].
  - destruct Hwrite as (Hactive & Hexpired & Hrevoke).
    apply Z.leb_le in Hexpired. replay. reflexivity.
  - replay. reflexivity.
Qed.

(** X5 on the reference world, with a store that refuses writes: the replay
    of a rotated token and the refresh of an expired record both end in the
    internal error. *)
Lemma refresh_failed_revocation_hides_rejection_witness :
  refresh read_only_service "jwt.1" None world2
    = (Thrown FAILED_TO_REFRESH, world2)
  /\
  refresh read_only_service "jwt.1" None world_expiring_now
    = (Thrown FAILED_TO_REFRESH, world_expiring_now).
Proof.
  split.
  - apply (refresh_failed_revocation_hides_rejection read_only_service
             "jwt.1" None world2 alice_payload world2 (table world2) world2
             None world2 DB_ERROR world2); reflexivity.
  - apply (refresh_failed_revocation_hides_rejection read_only_service
             "jwt.1" None world_expiring_now alice_payload world_expiring_now
             (table world_expiring_now) world_expiring_now
             (Some (expiring_at 1700000000000 record_rt_2))
             world_expiring_now DB_ERROR world_expiring_now);
      try reflexivity.
    split; [reflexivity|]. split; reflexivity.
Defined.

(** ** The boundary: [auth.controller.ts] *)

(** Unfolds a controller method down to the calls it makes. *)
Ltac unfold_controller :=
  unfold Controller.register, Controller.login, Controller.refresh,
    Controller.logout, Controller.me, lift, res_cookie, try_catch, bind,
    ret, throw;
  cbn -[refresh logout issueTokens includes].

Ltac replay_controller :=
  unfold_controller;
  repeat match goal with
    | H : _ = _ |- _ => rewrite H; cbn -[refresh logout issueTokens includes]
    end.

(** X8. Without a refresh-token cookie (no parsed cookies, no such cookie,
    or an empty value) the controller's [refresh] throws
    [InternalServerErrorException('Refresh token not found')]: the catch
    block lets this one through because its message contains "token".
    Neither the service nor any other import is called, and no cookie is
    set. *)
Theorem controller_refresh_without_cookie
    {W Options ApiResponse} (this : AuthController W Options ApiResponse)
    (req : Request) (w : W) (res : list (SetCookie Options)) :
  truthy_cookie req (COOKIE_NAMES_REFRESH_TOKEN this) = None ->
  Controller.refresh this req (w, res)
    = (Thrown (InternalServerErrorException "Refresh token not found"),
       (w, res)).
Proof. intros Hcookie. replay_controller. reflexivity. Qed.

(** X8 on the reference boundary: a request without the cookie, one whose
    cookie is empty, and one whose cookies were never parsed. *)
Lemma controller_refresh_without_cookie_witness :
  Controller.refresh controller request_without_cookie (world1, [])
    = (Thrown (InternalServerErrorException "Refresh token not found"),
       (world1, []))
  /\
  Controller.refresh controller (request_with "") (world1, [])
    = (Thrown (InternalServerErrorException "Refresh token not found"),
       (world1, []))
  /\
  Controller.refresh controller request_of_alice (world1, [])
    = (Thrown (InternalServerErrorException "Refresh token not found"),
       (world1, [])).
Proof.
  split; [|split];
    apply (controller_refresh_without_cookie controller); reflexivity.
Defined.

(** X9. When the service's [refresh] returns a pair, the controller sets
    the refresh-token cookie once, to the new refresh token and with the
    configured options, after the rotation and before the envelope is
    built; the service was given the cookie's value and the metadata
    extracted from the request, and the envelope carries the pair. *)
Theorem controller_refresh_sets_new_cookie
    {W Options ApiResponse} (this : AuthController W Options ApiResponse)
    (req : Request) (w : W) (res : list (SetCookie Options))
    (refreshToken : string) (meta : RequestMetadata) (w1 : W)
    (tokens : TokenPair) (w2 : W) (options : Options) (w3 : W)
    (envelope : ApiResponse TokenPair) (w4 : W) :
  truthy_cookie req (COOKIE_NAMES_REFRESH_TOKEN this) = Some refreshToken ->
  extractRequestMetadata this req w = (Returned meta, w1) ->
  refresh (auth this) refreshToken (Some meta) w1 = (Returned tokens, w2) ->
  getRefreshTokenCookieOptions this w2 = (Returned options, w3) ->
  createSuccessResponse this
    {| access_token := access_token tokens;
       refresh_token := refresh_token tokens;
       refresh_token_id := refresh_token_id tokens |}
    "Token refreshed successfully" None w3 = (Returned envelope, w4) ->
  Controller.refresh this req (w, res)
    = (Returned envelope,
       (w4, res ++ [{| cookie_name := COOKIE_NAMES_REFRESH_TOKEN this;
                       cookie_value := refresh_token tokens;
                       cookie_options := options |}])).
Proof.
  intros Hcookie Hmeta Hrefresh Hoptions Hresponse.
  replay_controller. reflexivity.
Qed.

(** X9 on the reference boundary: Alice's cookie jwt.1 is rotated into
    jwt.4, which is what the cookie is set to. *)
Lemma controller_refresh_sets_new_cookie_witness :
  let rotated := after (refresh service "jwt.1" (Some curl_metadata)) world1 in
  Controller.refresh controller (request_with "jwt.1") (world1, [])
    = (Returned {| statusCode := 200;
                   message := "Token refreshed successfully";
                   data := {| access_token := "jwt.3";
                              refresh_token := "jwt.4";
                              refresh_token_id := "rt_5" |} |},
       (rotated, [] ++ [{| cookie_name := "refresh_token";
                           cookie_value := "jwt.4";
                           cookie_options := "HttpOnly; Max-Age=604800" |}])).
Proof.
  cbv zeta.
  apply (controller_refresh_sets_new_cookie controller (request_with "jwt.1")
           world1 [] "jwt.1" curl_metadata world1
           {| access_token := "jwt.3"; refresh_token := "jwt.4";
              refresh_token_id := "rt_5" |}
           (after (refresh service "jwt.1" (Some curl_metadata)) world1)
           "HttpOnly; Max-Age=604800"
           (after (refresh service "jwt.1" (Some curl_metadata)) world1));
    reflexivity.
Defined.

(** X10. A refresh-token cookie that does not verify reaches the caller of
    the controller as [InternalServerErrorException('Failed to refresh
    tokens')]: the service replaces the [UnauthorizedException] of
    [verifyRefreshToken], and the controller's catch block lets the
    replacement through because its message contains "token".  No cookie is
    set, and nothing but the metadata extraction and the verification was
    run. *)
Theorem controller_refresh_invalid_token_is_internal_error
    {W Options ApiResponse} (this : AuthController W Options ApiResponse)
    (req : Request) (w : W) (res : list (SetCookie Options))
    (refreshToken : string) (meta : RequestMetadata) (w1 : W)
    (cause : exn) (w2 : W) :
  truthy_cookie req (COOKIE_NAMES_REFRESH_TOKEN this) = Some refreshToken ->
  extractRequestMetadata this req w = (Returned meta, w1) ->
  tokenRepo_verifyRefreshToken (tokenRepo (auth this)) refreshToken w1
    = (Thrown cause, w2) ->
  is_known_refresh_exception cause = false ->
  Controller.refresh this req (w, res)
    = (Thrown (InternalServerErrorException "Failed to refresh tokens"),
       (w2, res)).
Proof.
  intros Hcookie Hmeta Hverify Hunknown.
  unfold_controller. rewrite Hcookie, Hmeta. cbn -[refresh includes].
  unfold refresh, refresh_body, try_catch, bind, throw.
  rewrite Hverify, Hunknown. reflexivity.
Qed.

(** X10 on the reference boundary: a garbage cookie. *)
Lemma controller_refresh_invalid_token_is_internal_error_witness :
  tokenRepo_verifyRefreshToken (tokenRepo service) "garbage" world1
    = (Thrown (UnauthorizedException "Invalid or expired refresh token"),
       world1)
  /\
  Controller.refresh controller (request_with "garbage") (world1, [])
    = (Thrown (InternalServerErrorException "Failed to refresh tokens"),
       (world1, [])).
Proof.
  split; [reflexivity|].
  apply (controller_refresh_invalid_token_is_internal_error controller
           (request_with "garbage") world1 [] "garbage" curl_metadata world1
           (UnauthorizedException "Invalid or expired refresh token") world1);
    reflexivity.
Defined.

(** X11. [login] issues both tokens for the guard's user without a display
    name, though the user has one and the envelope reports it: the access
    token of a login carries no [displayName].  The request's metadata goes
    to the saved record, and the cookie is set to the new refresh token. *)
Theorem controller_login_signs_without_displayName
    {W Options ApiResponse} (this : AuthController W Options ApiResponse)
    (req : Request) (w : W) (res : list (SetCookie Options))
    (meta : RequestMetadata) (w1 : W) (user : UserInfo)
    (access refreshed : string) (w2 w3 : W)
    (saved : RefreshTokenRecord) (w4 : W) (options : Options) (w5 : W)
    (envelope : ApiResponse AuthResponseData) (w6 : W) :
  extractRequestMetadata this req w = (Returned meta, w1) ->
  req_user req = Some user ->
  jwt_sign (jwt (auth this))
    {| sub := id user; payload_email := email user;
       payload_displayName := None; typ := None |} None w1
    = (Returned access, w2) ->
  tokenRepo_createRefreshToken (tokenRepo (auth this))
    {| id := id user; email := email user; displayName := None |} w2
    = (Returned refreshed, w3) ->
  tokenRepo_save (tokenRepo (auth this)) (id user) refreshed (Some meta) w3
    = (Returned saved, w4) ->
  getRefreshTokenCookieOptions this w4 = (Returned options, w5) ->
  createSuccessResponse this
    {| response_user := {| id := id user; email := email user;
                           displayName := displayName user |};
       response_access_token := access;
       response_refresh_token := refreshed;
       response_refresh_token_id := rec_id saved |}
    "Login successful" None w5 = (Returned envelope, w6) ->
  Controller.login this req (w, res)
    = (Returned envelope,
       (w6, res ++ [{| cookie_name := COOKIE_NAMES_REFRESH_TOKEN this;
                       cookie_value := refreshed;
                       cookie_options := options |}])).
Proof.
  intros Hmeta Huser Hsign Hcreate Hsave Hoptions Hresponse.
  unfold_controller. rewrite Hmeta, Huser. cbn -[issueTokens].
  unfold_service.
  repeat match goal with
    | H : _ = _ |- _ => rewrite H; cbn
    end.
  reflexivity.
Qed.

(** X11 on the reference boundary: Alice logs in; the envelope names her
    "Alice", the access token signed for her has no display name. *)
Lemma controller_login_signs_without_displayName_witness :
  let logged_in :=
    after (issueTokens service
             {| id := "u1"; email := "alice@example.com"; displayName := None |}
             (Some curl_metadata)) world0 in
  Controller.login controller request_of_alice (world0, [])
    = (Returned {| statusCode := 200;
                   message := "Login successful";
                   data := {| response_user := alice_info;
                              response_access_token := "jwt.0";
                              response_refresh_token := "jwt.1";
                              response_refresh_token_id := "rt_2" |} |},
       (logged_in, [] ++ [{| cookie_name := "refresh_token";
                             cookie_value := "jwt.1";
                             cookie_options := "HttpOnly; Max-Age=604800" |}]))
  /\
  option_map (fun signed => payload_displayName (st_payload signed))
    (lookup_token "jwt.0" (minted logged_in)) = Some None.
Proof.
  cbv zeta. split; [|reflexivity].
  pose (user := {| id := "u1"; email := "alice@example.com";
                   displayName := None |}).
  pose (w2 := after (TokenUtil.signAccessToken model_jwt user) world0).
  pose (w3 := after (createRefreshToken user) w2).
  pose (w4 := after (save "u1" "jwt.1" (Some curl_metadata)) w3).
  apply (controller_login_signs_without_displayName controller
           request_of_alice world0 [] curl_metadata world0 alice_info
           "jwt.0" "jwt.1" w2 w3
           {| rec_id := "rt_2"; rec_userId := "u1";
              rec_token := "$2b$12$jwt.1";
              rec_issuedAt := 1700000000000; rec_expiresAt := 1700604800000;
              rec_revokedAt := None; rec_replacedById := None;
              rec_meta := Some curl_metadata |}
           w4 "HttpOnly; Max-Age=604800" w4
           {| statusCode := 200;
              message := "Login successful";
              data := {| response_user := alice_info;
                         response_access_token := "jwt.0";
                         response_refresh_token := "jwt.1";
                         response_refresh_token_id := "rt_2" |} |}
           w4);
    reflexivity.
Defined.

(** X12. The controller's [logout] clears the refresh-token cookie, by
    setting it to the empty string with the clearing options, when the
    request has no such cookie (and then without calling the service) and
    when the service's [logout] resolved.  When the service's [logout]
    throws, it throws [InternalServerErrorException('Failed to logout')]
    and the cookie is not cleared. *)
Theorem controller_logout_clears_cookie_unless_service_fails
    {W Options ApiResponse} (this : AuthController W Options ApiResponse)
    (req : Request) (w : W) (res : list (SetCookie Options)) :
  let cleared options :=
    res ++ [{| cookie_name := COOKIE_NAMES_REFRESH_TOKEN this;
               cookie_value := "";
               cookie_options := options |}] in
  (forall options w1 envelope w2,
      truthy_cookie req (COOKIE_NAMES_REFRESH_TOKEN this) = None ->
      getClearRefreshTokenCookieOptions this w = (Returned options, w1) ->
      createSuccessResponse this {| ok := true |} "Logout successful" None w1
        = (Returned envelope, w2) ->
      Controller.logout this req (w, res)
        = (Returned envelope, (w2, cleared options)))
  /\
  (forall refreshToken out w1 options w2 envelope w3,
      truthy_cookie req (COOKIE_NAMES_REFRESH_TOKEN this) = Some refreshToken ->
      logout (auth this) refreshToken w = (Returned out, w1) ->
      getClearRefreshTokenCookieOptions this w1 = (Returned options, w2) ->
      createSuccessResponse this {| ok := true |} "Logout successful" None w2
        = (Returned envelope, w3) ->
      Controller.logout this req (w, res)
        = (Returned envelope, (w3, cleared options)))
  /\
  (forall refreshToken cause w1,
      truthy_cookie req (COOKIE_NAMES_REFRESH_TOKEN this) = Some refreshToken ->
      logout (auth this) refreshToken w = (Thrown cause, w1) ->
      Controller.logout this req (w, res) = (Thrown FAILED_TO_LOGOUT, (w1, res))).
Proof.
  cbv zeta. split; [|split]; intros; replay_controller; reflexivity.
Qed.

(** X12 on the reference boundary: no cookie, Alice's cookie, and Alice's
    cookie while the store is down. *)
Lemma controller_logout_clears_cookie_unless_service_fails_witness :
  let clear := {| cookie_name := "refresh_token"; cookie_value := "";
                  cookie_options := "HttpOnly; Max-Age=0" |} in
  let done := {| statusCode := 200; message := "Logout successful";
                 data := {| ok := true |} |} in
  Controller.logout controller request_without_cookie (world1, [])
    = (Returned done, (world1, [] ++ [clear]))
  /\
  Controller.logout controller (request_with "jwt.1") (world1, [])
    = (Returned done, (after (logout service "jwt.1") world1, [] ++ [clear]))
  /\
  Controller.logout controller (request_with "jwt.1")
      (with_store_down true world1, [])
    = (Thrown FAILED_TO_LOGOUT, (with_store_down true world1, [])).
Proof.
  cbv zeta. split; [|split].
  - apply (proj1 (controller_logout_clears_cookie_unless_service_fails
                    controller request_without_cookie world1 [])
             "HttpOnly; Max-Age=0" world1);
      reflexivity.
  - apply (proj1 (proj2 (controller_logout_clears_cookie_unless_service_fails
                    controller (request_with "jwt.1") world1 []))
             "jwt.1" {| ok := true |} (after (logout service "jwt.1") world1)
             "HttpOnly; Max-Age=0" (after (logout service "jwt.1") world1));
      reflexivity.
  - apply (proj2 (proj2 (controller_logout_clears_cookie_unless_service_fails
                    controller (request_with "jwt.1")
                    (with_store_down true world1) []))
             "jwt.1" FAILED_TO_LOGOUT (with_store_down true world1));
      reflexivity.
Defined.

(** X13. [register] throws nothing but
    [InternalServerErrorException('Failed to register user')].  When
    [createUser] returned and [issueTokens] then throws, it throws this
    error with the world as the two calls left it: the user was created
    and stays created, and no cookie is set. *)
Theorem controller_register_fails_after_creating_user
    {W Options ApiResponse} (this : AuthController W Options ApiResponse)
    (dto : RegisterDto) (req : Request) (w : W)
    (res : list (SetCookie Options)) :
  (forall e state,
      Controller.register this dto req (w, res) = (Thrown e, state) ->
      e = FAILED_TO_REGISTER)
  /\
  (forall user w1 meta w2 cause w3,
      users_createUser this (dto_email dto) (dto_password dto)
        (dto_displayName dto) w = (Returned user, w1) ->
      extractRequestMetadata this req w1 = (Returned meta, w2) ->
      issueTokens (auth this)
        {| id := user_id user; email := user_email user; displayName := None |}
        (Some meta) w2 = (Thrown cause, w3) ->
      Controller.register this dto req (w, res)
        = (Thrown FAILED_TO_REGISTER, (w3, res))).
Proof.
  split.
  - intros e state. unfold Controller.register, try_catch.
    match goal with
    | |- context [match ?body (w, res) with _ => _ end] =>
        destruct (body (w, res)) as [[envelope|cause] state']
    end; [discriminate|].
    unfold throw. intros H. injection H as <- _. reflexivity.
  - intros. replay_controller. reflexivity.
Qed.

(** X13 on the reference boundary, with a store that refuses writes to the
    token table: Dave's registration fails, yet his row is in the
    directory afterwards. *)
Lemma controller_register_fails_after_creating_user_witness :
  let failed :=
    after (issueTokens read_only_service
             {| id := "u_3"; email := "dave@example.com"; displayName := None |}
             (Some curl_metadata)) world_with_dave in
  Controller.register (controller_of read_only_service) dave_dto
      request_without_cookie (world1, [])
    = (Thrown FAILED_TO_REGISTER, (failed, []))
  /\
  map user_email (directory failed)
    = ["alice@example.com"; "bob@example.com"; "carol@example.com";
       "dave@example.com"].
Proof.
  cbv zeta. split; [|reflexivity].
  apply (proj2 (controller_register_fails_after_creating_user
                  (controller_of read_only_service) dave_dto
                  request_without_cookie world1 [])
           dave world_with_dave curl_metadata world_with_dave
           FAILED_TO_ISSUE);
    reflexivity.
Defined.
